(** * gophKeeper: the data-item storage engine, the access guard and login

    A shallow embedding of the server side of gophKeeper: the relational
    repository for data items ([pg]), the object-store repository ([s3]),
    the service that orchestrates both ([service]), the use cases and gRPC
    handlers above it, the JWT guard ([auth]) and the login flow ([users]).

    Go values are embedded as follows.
    - [string] is a Go string (a sequence of bytes); [list byte] is [[]byte].
    - A Go pointer field ([*string], [*[]byte], [*time.Time]) is an [option].
    - [time.Time] is a number of seconds, [Z].
    - A Go [error] is [option error]; [None] is [nil].
    - A call that may change a backing store is a function of the store that
      returns an outcome [res]: a normal return with the new store, a panic,
      or a process exit ([log.Fatal]).
    - PostgreSQL is a list of rows per table; a Go nil pointer written to a
      column is SQL NULL; statements run on the pool are committed at once,
      statements run on a transaction handle are buffered until commit.
      Column values are taken to be well typed for their column: the
      coercion failures of the server (enum labels, integer syntax, foreign
      keys) are not reproduced. *)

From Stdlib Require Import String Ascii ZArith List Bool Lia.
From Stdlib.Strings Require Import Byte.
From Stdlib Require DecimalString.
From stdpp Require Import base option list gmap strings.

Open Scope string_scope.
Open Scope list_scope.
Open Scope Z_scope.

(** ** Errors *)

(** [Err] is an error made from a message ([errs.Err], [errors.New],
    [fmt.Errorf] without [%w]); [Wrapf p e] is [fmt.Errorf(p + "%w", e)]. *)
Inductive error : Type :=
| Err (msg : string)
| Wrapf (prefix : string) (cause : error).

Fixpoint Error (e : error) : string :=
  match e with
  | Err m => m
  | Wrapf p c => p +:+ Error c
  end.

#[global] Instance error_eq_dec : EqDecision error.
Proof. solve_decision. Defined.

(** [fmt.Errorf(p + "%v", e)]: the cause is flattened into the message. *)
Definition Errorf_v (p : string) (e : error) : error := Err (p +:+ Error e).

Module errs.
Definition NoRows := Err "err_no_rows".
Definition ServiceNA := Err "service_not_available".
Definition InvalidInput := Err "invalid_input".
Definition UserNotFound := Err "user_not_found".
Definition UsernameAlreadyExists := Err "username_already_exists".
Definition InvalidPassword := Err "invalid_password".
End errs.

(** ** Outcomes of effectful calls *)

Inductive res (W A : Type) : Type :=
| Done (a : A) (w : W)
| Panic (w : W)
| Exit (w : W).
Arguments Done {W A} a w.
Arguments Panic {W A} w.
Arguments Exit {W A} w.

Definition M (W A : Type) : Type := W -> res W A.

Definition ret {W A} (a : A) : M W A := fun w => Done a w.

Definition bind {W A B} (m : M W A) (k : A -> M W B) : M W B :=
  fun w =>
    match m w with
    | Done a w' => k a w'
    | Panic w' => Panic w'
    | Exit w' => Exit w'
    end.

Definition panic {W A} : M W A := fun w => Panic w.
Definition log_Fatalln {W A} : M W A := fun w => Exit w.

Declare Scope go_scope.
Delimit Scope go_scope with go.
Notation "'let*' p ':=' m 'in' k" := (bind m (fun p => k))
  (at level 10, p pattern, m at level 100, k at level 200) : go_scope.
Open Scope go_scope.

(** A call on the first, respectively the second, component of a pair of
    stores. *)
Definition onFst {D B A} (m : M D A) : M (D * B) A :=
  fun w =>
    match m (fst w) with
    | Done a d => Done a (d, snd w)
    | Panic d => Panic (d, snd w)
    | Exit d => Exit (d, snd w)
    end.

Definition onSnd {D B A} (m : M B A) : M (D * B) A :=
  fun w =>
    match m (snd w) with
    | Done a b => Done a (fst w, b)
    | Panic b => Panic (fst w, b)
    | Exit b => Exit (fst w, b)
    end.

(** [defer zero h body]: [body] yields the value to return together with the
    final value of the local [err] the deferred call holds a pointer to. The
    deferred call [h recovered err] then runs: with [recovered = false] after
    a normal return, with [recovered = true] when [body] panicked; it does
    not run when the process exits. What it writes through the pointer does
    not reach the value already returned (the results are not named). A
    deferred call that swallows the panic makes the function return the zero
    value. *)
Definition defer {W A} (zero : A)
    (h : bool -> option error -> M W (option error))
    (body : M W (A * option error)) : M W A :=
  fun w =>
    match body w with
    | Done (a, e) w' =>
        match h false e w' with
        | Done _ w'' => Done a w''
        | Panic w'' => Panic w''
        | Exit w'' => Exit w''
        end
    | Panic w' =>
        match h true None w' with
        | Done _ w'' => Done zero w''
        | Panic w'' => Panic w''
        | Exit w'' => Exit w''
        end
    | Exit w' => Exit w'
    end.

Definition nonempty (s : string) : bool := negb (String.eqb s "").

(** ** Libraries outside the repository *)

(** [Claims] of package [auth/service]: the registered expiry and the user
    id. *)
Record Claims : Type := mkClaims {
  ExpiresAt : option Z;
  UID : string;
}.

(** What [jwt.ParseWithClaims] yields besides its error: the claims and the
    [Valid] flag of the token. *)
Record jwt_Token : Type := mkToken {
  token_Claims : Claims;
  token_Valid : bool;
}.

(** Functions of the Go standard library and of third-party packages that
    the code calls; they are kept abstract. *)
Class Externals : Type := {
  (** [path/filepath.Join] of two elements *)
  filepath_Join : string -> string -> string;
  (** [strconv.Atoi]: the value (0 on a syntax error) and the error *)
  strconv_Atoi : string -> Z * option error;
  (** [fmt.Sprintf("%d", n)] *)
  fmt_Sprintf_d : Z -> string;
  (** [bcrypt.CompareHashAndPassword(hash, password)] *)
  bcrypt_CompareHashAndPassword : string -> string -> option error;
  (** [jwt.NewWithClaims(jwt.SigningMethodHS256, claims).SignedString(key)] *)
  jwt_SignedString : Claims -> string -> string * option error;
  (** [jwt.ParseWithClaims(tokenString, &Claims{}, keyFunc)] with a key
      function that accepts HMAC methods only and returns [key]. The
      library also checks the expiry of the claims against the clock: the
      function is the library at the time of the request in hand, and no
      property assumes that it accepts what [jwt_SignedString] signed *)
  jwt_ParseWithClaims : string -> string -> jwt_Token * option error;
}.

(** ** The data-item model (package [model]) *)

Module model.

Definition CredentialsDataType : string := "login_password".
Definition TextDataType : string := "text".
Definition BinaryDataType : string := "binary".
Definition BankCardDataType : string := "bank_card".

(** [model.Main], named [model.DataItems] in the later packages. *)
Module DataItems.
Record t : Type := mk {
  ID : string;
  UserID : string;
  Type_ : string;
  Data : list byte;
  Meta : string;
  URL : string;
  CreatedAt : Z;
  UpdatedAt : Z;
}.
Definition zero : t := mk "" "" "" [] "" "" 0 0.
End DataItems.

Module GetPars.
Record t : Type := mk {
  ID : string;
  UserID : string;
  Type_ : string;
  Meta : string;
  URL : string;
}.

Definition IsValid (m : t) : bool :=
  nonempty (ID m) || nonempty (UserID m) || nonempty (Type_ m)
  || nonempty (Meta m) || nonempty (URL m).

(** [&model.GetPars{ID: id}] *)
Definition ofID (id : string) : t := mk id "" "" "" "".
End GetPars.

Module ListPars.
Record t : Type := mk {
  ID : option string;
  IDs : option (list string);
  UserID : option string;
  UserIDs : option (list string);
  Type_ : option string;
  Meta : option string;
  URL : option string;
  CreatedBefore : option Z;
  CreatedAfter : option Z;
  UpdatedBefore : option Z;
  UpdatedAfter : option Z;
}.
Definition zero : t :=
  mk None None None None None None None None None None None.
End ListPars.

Module Edit.
Record t : Type := mk {
  ID : string;
  UserID : option string;
  Type_ : option string;
  Data : option (list byte);
  Meta : option string;
  URL : option string;
  CreatedAt : option Z;
  UpdatedAt : option Z;
}.
Definition zero : t := mk "" None None None None None None None.
Definition withURL (obj : t) (url : string) : t :=
  mk (ID obj) (UserID obj) (Type_ obj) (Data obj) (Meta obj) (Some url)
     (CreatedAt obj) (UpdatedAt obj).
End Edit.

End model.
Import model.

(** ** The login model (package [users/model]) *)

Module users_model.

(** [model.Main], named [model.User] in the later packages. *)
Module User.
Record t : Type := mk {
  UserID : string;
  Username : string;
  PasswordHash : string;
  CreatedAt : Z;
  UpdatedAt : Z;
}.
End User.

Module GetPars.
Record t : Type := mk {
  UserID : string;
  Username : string;
}.
Definition IsValid (m : t) : bool :=
  nonempty (UserID m) || nonempty (Username m).
End GetPars.

End users_model.

(** ** The database: tables, statements, pool and transactions

    The two tables of [migrations/000001_init.up.sql], the statements the
    repositories build with squirrel, and how the pgx pool and a pgx
    transaction run them. *)

Module pgx.

(** A row of [data_items]; [user_id] and [meta] are nullable columns. *)
Record Row : Type := mkRow {
  id : string;
  user_id : option string;
  type_ : string;
  data : list byte;
  meta : option string;
  url : string;
  created_at : Z;
  updated_at : Z;
}.

(** A row of [users]; every column that is read is NOT NULL or defaulted. *)
Record UserRow : Type := mkUserRow {
  u_id : string;
  u_username : string;
  u_password_hash : string;
  u_created_at : Z;
  u_updated_at : Z;
}.

(** [Where] clauses on [data_items]: [squirrel.Eq], [LtOrEq], [GtOrEq]. *)
Inductive Cond : Type :=
| EqID (v : string)
| InID (vs : list string)
| EqUserID (v : string)
| InUserID (vs : list string)
| EqType (v : string)
| CreatedAtLtOrEq (t : Z)
| CreatedAtGtOrEq (t : Z)
| UpdatedAtLtOrEq (t : Z)
| UpdatedAtGtOrEq (t : Z).

(** A clause compares the column with the value as the driver sends it,
    as text. The server reads the value at the type of the column first and
    fails the query when it cannot; [is_int] and [is_data_type] below say
    when it can. *)
Definition holds (c : Cond) (r : Row) : bool :=
  match c with
  | EqID v => String.eqb (id r) v
  | InID vs => existsb (String.eqb (id r)) vs
  | EqUserID v =>
      match user_id r with Some u => String.eqb u v | None => false end
  | InUserID vs =>
      match user_id r with
      | Some u => existsb (String.eqb u) vs
      | None => false
      end
  | EqType v => String.eqb (type_ r) v
  | CreatedAtLtOrEq t => created_at r <=? t
  | CreatedAtGtOrEq t => t <=? created_at r
  | UpdatedAtLtOrEq t => updated_at r <=? t
  | UpdatedAtGtOrEq t => t <=? updated_at r
  end.

(** Successive [Where] calls are joined by AND. *)
Definition where_ (cs : list Cond) (r : Row) : bool :=
  forallb (fun c => holds c r) cs.

(** [Set] clauses of an UPDATE on [data_items]. *)
Inductive SetClause : Type :=
| SetUserID (v : string)
| SetType (v : string)
| SetData (v : list byte)
| SetMeta (v : string)
| SetUpdatedAt (t : Z)
| SetURL (v : string).

Definition assign (r : Row) (s : SetClause) : Row :=
  match s with
  | SetUserID v =>
      mkRow (id r) (Some v) (type_ r) (data r) (meta r) (url r)
            (created_at r) (updated_at r)
  | SetType v =>
      mkRow (id r) (user_id r) v (data r) (meta r) (url r)
            (created_at r) (updated_at r)
  | SetData v =>
      mkRow (id r) (user_id r) (type_ r) v (meta r) (url r)
            (created_at r) (updated_at r)
  | SetMeta v =>
      mkRow (id r) (user_id r) (type_ r) (data r) (Some v) (url r)
            (created_at r) (updated_at r)
  | SetUpdatedAt t =>
      mkRow (id r) (user_id r) (type_ r) (data r) (meta r) (url r)
            (created_at r) t
  | SetURL v =>
      mkRow (id r) (user_id r) (type_ r) (data r) (meta r) v
            (created_at r) (updated_at r)
  end.

(** The statements sent with [Exec]. [Insert] lists the columns
    [id, user_id, type, data, meta]. *)
Inductive Stmt : Type :=
| Insert (id : string) (user_id type_ : option string)
         (data : option (list byte)) (meta : option string)
| Update (sets : list SetClause) (conds : list Cond)
| Delete (conds : list Cond).

(** [ToSql]: squirrel refuses an UPDATE without a [Set] clause. *)
Definition ToSql (s : Stmt) : option error :=
  match s with
  | Update [] _ =>
      Some (Err "update statements must have at least one Set clause")
  | _ => None
  end.

(** One statement against the table, at server time [now]. An INSERT
    fails on a NULL in a NOT NULL column and on a duplicate primary key;
    [url] takes its default, the two timestamps CURRENT_TIMESTAMP. The
    values are stored as the text the driver sends: that the server refuses
    a value that is not of the type of its column is not part of [run]; the
    predicates below say which values pass that check. *)
Definition run (now : Z) (s : Stmt) (tbl : list Row)
  : list Row * option error :=
  match s with
  | Insert i u (Some t) (Some d) m =>
      if existsb (fun r => String.eqb (id r) i) tbl
      then (tbl, Some (Err "duplicate key value violates unique constraint"))
      else (tbl ++ [mkRow i u t d m "" now now], None)
  | Insert _ _ _ _ _ =>
      (tbl, Some (Err "null value violates not-null constraint"))
  | Update sets conds =>
      (map (fun r => if where_ conds r then fold_left assign sets r else r)
           tbl, None)
  | Delete conds =>
      (filter (fun r => negb (where_ conds r)) tbl, None)
  end.

(** *** The values the server accepts

    From the migration: [type] is of the enum [data_type], [user_id] is an
    INT that REFERENCES users(id), and [url] is a VARCHAR(255). A statement
    with a value that is not of the type of its column is refused by the
    server, whatever the rows are. The predicates below describe values
    that pass; the properties of statements whose values a client chooses
    are stated for such values. *)



(** The text of an INT: the decimal numeral of a 32-bit integer, written
    as the server writes it (no sign but [-], no leading zero). *)
Definition is_int (v : string) : bool :=
  match DecimalString.NilZero.int_of_string v with
  | Some i =>
      let n := Z.of_int i in
      String.eqb (DecimalString.NilZero.string_of_int (Z.to_int n)) v
      && (- 2147483648 <=? n) && (n <=? 2147483647)
  | None => false
  end.

(** A value for [user_id] that the foreign key admits. *)
Definition is_account (accounts : list UserRow) (v : string) : bool :=
  is_int v && existsb (fun a => String.eqb (u_id a) v) accounts.

Definition fits_url (v : string) : bool := (String.length v <=? 255)%nat.

(** The database server: the committed tables, the server clock, and for
    every open transaction the statements it has buffered. *)
Record DB : Type := mkDB {
  data_items : list Row;
  users : list UserRow;
  now : Z;
  pending : gmap nat (list Stmt);
  next_tx : nat;
}.

Definition with_data_items (db : DB) (tbl : list Row) : DB :=
  mkDB tbl (users db) (now db) (pending db) (next_tx db).

Definition with_pending (db : DB) (p : gmap nat (list Stmt)) : DB :=
  mkDB (data_items db) (users db) (now db) p (next_tx db).

(** [pgx.Tx]: an interface value, [None] when nil. *)
Definition Tx : Type := option nat.

Definition ErrTxClosed : error := Err "tx is closed".

(** [pool.Exec]: the statement takes effect, and is committed, at once. *)
Definition Pool_Exec (s : Stmt) : M DB (option error) :=
  fun db =>
    let '(tbl, err) := run (now db) s (data_items db) in
    Done err (with_data_items db tbl).

(** [pool.QueryRow] of a SELECT with [Limit(1)]: the first matching row,
    or none ([pgx.ErrNoRows] at [Scan]). *)
Definition Pool_QueryRow (conds : list Cond) : M DB (option Row) :=
  fun db => Done (head (filter (where_ conds) (data_items db))) db.

(** [pool.Query] of a SELECT. *)
Definition Pool_Query (conds : list Cond) : M DB (list Row) :=
  fun db => Done (filter (where_ conds) (data_items db)) db.

(** [pool.BeginTx]. *)
Definition Pool_BeginTx : M DB (Tx * option error) :=
  fun db =>
    Done (Some (next_tx db), None)
         (mkDB (data_items db) (users db) (now db)
               (<[next_tx db := []]> (pending db)) (S (next_tx db))).

(** [tx.Exec]: the statement is buffered in the transaction. No function
    of the repository calls it. *)
Definition Tx_Exec (tx : Tx) (s : Stmt) : M DB (option error) :=
  fun db =>
    match tx with
    | None => Panic db
    | Some h =>
        match pending db !! h with
        | None => Done (Some ErrTxClosed) db
        | Some ss => Done None (with_pending db (<[h := ss ++ [s]]> (pending db)))
        end
    end.

Fixpoint run_all (now : Z) (ss : list Stmt) (tbl : list Row)
  : list Row * option error :=
  match ss with
  | [] => (tbl, None)
  | s :: ss' =>
      match run now s tbl with
      | (tbl', None) => run_all now ss' tbl'
      | (_, Some e) => (tbl, Some e)
      end
  end.

(** [tx.Commit]: the buffered statements take effect together, or none
    does. *)
Definition Tx_Commit (tx : Tx) : M DB (option error) :=
  fun db =>
    match tx with
    | None => Panic db
    | Some h =>
        match pending db !! h with
        | None => Done (Some ErrTxClosed) db
        | Some ss =>
            match run_all (now db) ss (data_items db) with
            | (tbl, None) =>
                Done None (mkDB tbl (users db) (now db)
                                (delete h (pending db)) (next_tx db))
            | (_, Some e) =>
                Done (Some e) (with_pending db (delete h (pending db)))
            end
        end
    end.

(** [tx.Rollback]: the buffered statements are dropped. *)
Definition Tx_Rollback (tx : Tx) : M DB (option error) :=
  fun db =>
    match tx with
    | None => Panic db
    | Some h =>
        match pending db !! h with
        | None => Done (Some ErrTxClosed) db
        | Some _ => Done None (with_pending db (delete h (pending db)))
        end
    end.

End pgx.

(** ** The repository interfaces the service declares *)

(** [RepoDBI]: a relational repository over a store of type [D]. [Get]
    returns a pointer ([None] when nil), the found flag and the error.
    [HandleTxCompletion tx recovered err] is the deferred completion helper;
    [recovered] tells whether its [recover()] caught a panic, and the result
    is what it leaves in [*err]. *)
Class RepoDBI (D : Type) : Type := {
  RepoDBI_Get : GetPars.t -> M D (option DataItems.t * bool * option error);
  RepoDBI_List : ListPars.t -> M D (list DataItems.t * Z * option error);
  RepoDBI_Create : Edit.t -> M D (option error);
  RepoDBI_Update : GetPars.t -> Edit.t -> M D (option error);
  RepoDBI_Delete : GetPars.t -> M D (option error);
  RepoDBI_BeginTx : M D (pgx.Tx * option error);
  RepoDBI_CommitTx : pgx.Tx -> M D (option error);
  RepoDBI_RollbackTx : pgx.Tx -> M D (option error);
  RepoDBI_HandleTxCompletion :
    pgx.Tx -> bool -> option error -> M D (option error);
}.

(** [RepoS3]: an object-store repository over a store of type [B]. *)
Class RepoS3 (B : Type) : Type := {
  RepoS3_GetFile : GetPars.t -> M B (list byte * bool * option error);
  RepoS3_UploadFile : string -> list byte -> M B (string * option error);
  RepoS3_DeleteFile : GetPars.t -> M B (option error);
}.

(** ** The PostgreSQL repository for data items (package [pg]) *)

Module pg.

(** [Scan] of the eight columns of [SELECT *] into the string and byte
    fields of [model.DataItems]: a NULL cannot be scanned into a string. *)
Definition Scan (r : pgx.Row) : DataItems.t + error :=
  match pgx.user_id r, pgx.meta r with
  | Some u, Some m =>
      inl (DataItems.mk (pgx.id r) u (pgx.type_ r) (pgx.data r) m
             (pgx.url r) (pgx.created_at r) (pgx.updated_at r))
  | _, _ => inr (Err "cannot scan NULL into *string")
  end.

(** [Scan] of the six columns [List] selects. *)
Definition Scan6 (r : pgx.Row) : DataItems.t + error :=
  match pgx.user_id r with
  | Some u =>
      inl (DataItems.mk (pgx.id r) u (pgx.type_ r) (pgx.data r) "" ""
             (pgx.created_at r) (pgx.updated_at r))
  | None => inr (Err "cannot scan NULL into *string")
  end.

Definition Get_conds (pars : GetPars.t) : list pgx.Cond :=
  let queryBuilder := [] in
  let queryBuilder :=
    if nonempty (GetPars.ID pars)
    then queryBuilder ++ [pgx.EqID (GetPars.ID pars)] else queryBuilder in
  let queryBuilder :=
    if nonempty (GetPars.UserID pars)
    then queryBuilder ++ [pgx.EqUserID (GetPars.UserID pars)]
    else queryBuilder in
  let queryBuilder :=
    if nonempty (GetPars.Type_ pars)
    then queryBuilder ++ [pgx.EqType (GetPars.Type_ pars)]
    else queryBuilder in
  queryBuilder.

Definition Get (pars : GetPars.t)
  : M pgx.DB (option DataItems.t * bool * option error) :=
  if negb (GetPars.IsValid pars) then ret (None, false, Some errs.InvalidInput)
  else
    let* row := pgx.Pool_QueryRow (Get_conds pars) in
    match row with
    | None => ret (None, false, None)
    | Some r =>
        match Scan r with
        | inl result => ret (Some result, true, None)
        | inr err => ret (None, false, Some err)
        end
    end.

Definition opt_cond {A} (o : option A) (c : A -> pgx.Cond)
    (queryBuilder : list pgx.Cond) : list pgx.Cond :=
  match o with
  | Some v => queryBuilder ++ [c v]
  | None => queryBuilder
  end.

Definition List_conds (pars : ListPars.t) : list pgx.Cond :=
  let queryBuilder := [] in
  let queryBuilder := opt_cond (ListPars.ID pars) pgx.EqID queryBuilder in
  let queryBuilder := opt_cond (ListPars.IDs pars) pgx.InID queryBuilder in
  let queryBuilder :=
    opt_cond (ListPars.UserID pars) pgx.EqUserID queryBuilder in
  let queryBuilder :=
    opt_cond (ListPars.UserIDs pars) pgx.InUserID queryBuilder in
  let queryBuilder := opt_cond (ListPars.Type_ pars) pgx.EqType queryBuilder in
  let queryBuilder :=
    opt_cond (ListPars.CreatedBefore pars) pgx.CreatedAtLtOrEq queryBuilder in
  let queryBuilder :=
    opt_cond (ListPars.CreatedAfter pars) pgx.CreatedAtGtOrEq queryBuilder in
  let queryBuilder :=
    opt_cond (ListPars.UpdatedBefore pars) pgx.UpdatedAtLtOrEq queryBuilder in
  let queryBuilder :=
    opt_cond (ListPars.UpdatedAfter pars) pgx.UpdatedAtGtOrEq queryBuilder in
  queryBuilder.

(** The [for rows.Next()] loop: the first row that fails to scan ends the
    call with its error. *)
Fixpoint scan_rows (rows : list pgx.Row) (result : list DataItems.t)
  : list DataItems.t * option error :=
  match rows with
  | [] => (result, None)
  | r :: rows' =>
      match Scan6 r with
      | inl data => scan_rows rows' (result ++ [data])
      | inr err => ([], Some err)
      end
  end.

Definition List (pars : ListPars.t)
  : M pgx.DB (list DataItems.t * Z * option error) :=
  let* rows := pgx.Pool_Query (List_conds pars) in
  match scan_rows rows [] with
  | (_, Some err) => ret ([], 0, Some err)
  | (result, None) => ret (result, Z.of_nat (length result), None)
  end.

Definition Create (obj : Edit.t) : M pgx.DB (option error) :=
  let insert :=
    pgx.Insert (Edit.ID obj) (Edit.UserID obj) (Edit.Type_ obj)
               (Edit.Data obj) (Edit.Meta obj) in
  match pgx.ToSql insert with
  | Some err => ret (Some err)
  | None => pgx.Pool_Exec insert
  end.

Definition opt_set {A} (o : option A) (c : A -> pgx.SetClause)
    (queryBuilder : list pgx.SetClause) : list pgx.SetClause :=
  match o with
  | Some v => queryBuilder ++ [c v]
  | None => queryBuilder
  end.

Definition Update_sets (obj : Edit.t) : list pgx.SetClause :=
  let queryBuilder := [] in
  let queryBuilder := opt_set (Edit.UserID obj) pgx.SetUserID queryBuilder in
  let queryBuilder := opt_set (Edit.Type_ obj) pgx.SetType queryBuilder in
  let queryBuilder := opt_set (Edit.Data obj) pgx.SetData queryBuilder in
  let queryBuilder := opt_set (Edit.Meta obj) pgx.SetMeta queryBuilder in
  let queryBuilder :=
    opt_set (Edit.UpdatedAt obj) pgx.SetUpdatedAt queryBuilder in
  let queryBuilder := opt_set (Edit.URL obj) pgx.SetURL queryBuilder in
  queryBuilder.

Definition Update_conds (pars : GetPars.t) : list pgx.Cond :=
  let queryBuilder := [] in
  let queryBuilder :=
    if nonempty (GetPars.ID pars)
    then queryBuilder ++ [pgx.EqID (GetPars.ID pars)] else queryBuilder in
  let queryBuilder :=
    if nonempty (GetPars.UserID pars)
    then queryBuilder ++ [pgx.EqUserID (GetPars.UserID pars)]
    else queryBuilder in
  queryBuilder.

Definition Update (pars : GetPars.t) (obj : Edit.t) : M pgx.DB (option error) :=
  if negb (GetPars.IsValid pars) then ret (Some errs.InvalidInput)
  else
    let update := pgx.Update (Update_sets obj) (Update_conds pars) in
    match pgx.ToSql update with
    | Some err => ret (Some err)
    | None => pgx.Pool_Exec update
    end.

Definition Delete (pars : GetPars.t) : M pgx.DB (option error) :=
  if negb (GetPars.IsValid pars) then ret (Some errs.InvalidInput)
  else
    let delete := pgx.Delete [pgx.EqID (GetPars.ID pars)] in
    match pgx.ToSql delete with
    | Some err => ret (Some err)
    | None => pgx.Pool_Exec delete
    end.

Definition BeginTx : M pgx.DB (pgx.Tx * option error) :=
  let* (tx, err) := pgx.Pool_BeginTx in
  match err with
  | Some e => ret (None, Some e)
  | None => ret (tx, None)
  end.

Definition CommitTx (tx : pgx.Tx) : M pgx.DB (option error) :=
  let* err := pgx.Tx_Commit tx in
  match err with
  | Some e => ret (Some e)
  | None => ret None
  end.

Definition RollbackTx (tx : pgx.Tx) : M pgx.DB (option error) :=
  let* err := pgx.Tx_Rollback tx in
  match err with
  | Some e => if bool_decide (e = pgx.ErrTxClosed) then ret None else ret (Some e)
  | None => ret None
  end.

Definition HandleTxCompletion (tx : pgx.Tx) (recovered : bool)
    (err : option error) : M pgx.DB (option error) :=
  if recovered then
    let* _ := pgx.Tx_Rollback tx in
    panic
  else
    match err with
    | Some e =>
        let* _ := pgx.Tx_Rollback tx in
        ret (Some e)
    | None => pgx.Tx_Commit tx
    end.

#[export] Instance Repo : RepoDBI pgx.DB := {
  RepoDBI_Get := Get;
  RepoDBI_List := List;
  RepoDBI_Create := Create;
  RepoDBI_Update := Update;
  RepoDBI_Delete := Delete;
  RepoDBI_BeginTx := BeginTx;
  RepoDBI_CommitTx := CommitTx;
  RepoDBI_RollbackTx := RollbackTx;
  RepoDBI_HandleTxCompletion := HandleTxCompletion;
}.

End pg.

(** ** The object-store repository (package [s3]) *)

Module s3.

(** The bucket [S3Bucket] behind the MinIO client: its objects by name, and
    whether the endpoint can be reached. *)
Record Store : Type := mkStore {
  objects : gmap string (list byte);
  reachable : bool;
}.

Definition unreachable : error := Err "connection refused".

(** [client.GetObject]: no request is sent yet; the object is read when
    the returned handle is. *)
Definition minio_GetObject (objectName : string)
  : M Store (string * option error) :=
  ret (objectName, None).

(** [io.Copy(buffer, object)]: reading the handle fetches the object. *)
Definition io_Copy (object : string) : M Store (list byte * option error) :=
  fun st =>
    if reachable st then
      match objects st !! object with
      | Some b => Done (b, None) st
      | None => Done ([], Some (Err "The specified key does not exist.")) st
      end
    else Done ([], Some unreachable) st.

(** [client.PutObject]: an object of that name is replaced. *)
Definition minio_PutObject (objectName : string) (data : list byte)
  : M Store (option error) :=
  fun st =>
    if reachable st
    then Done None (mkStore (<[objectName := data]> (objects st)) true)
    else Done (Some unreachable) st.

(** [client.RemoveObject]: removing a missing object is not an error. *)
Definition minio_RemoveObject (objectName : string) : M Store (option error) :=
  fun st =>
    if reachable st
    then Done None (mkStore (delete objectName (objects st)) true)
    else Done (Some unreachable) st.

Record S3Repo : Type := mkS3Repo {
  S3Endpoint : string;
  S3AccessKey : string;
  S3SecretKey : string;
  S3Bucket : string;
}.

Section repo.
Context {ext : Externals} (r : S3Repo).

Definition GetFile (pars : GetPars.t)
  : M Store (list byte * bool * option error) :=
  let '(id, _) := strconv_Atoi (GetPars.ID pars) in
  let objectName := filepath_Join "uploads" (fmt_Sprintf_d id) in
  let* (object, err) := minio_GetObject objectName in
  match err with
  | Some e => ret ([], false, Some (Errorf_v "failed to get object: " e))
  | None =>
      let* (buffer, err) := io_Copy object in
      match err with
      | Some _ => log_Fatalln
      | None => ret (buffer, false, None)
      end
  end.

(** Modelled from the spec: [UploadFile] called with the string id of the
    item. The file under src/ still has the earlier signature
    [UploadFile(ctx, id int, data)], which formats the number with
    [%d]; the service calls it with the string id, so the string is
    joined to the prefix as it is, as [DeleteFile] does. *)
Definition UploadFile (id : string) (data : list byte)
  : M Store (string * option error) :=
  let objectName := filepath_Join "uploads" id in
  let* err := minio_PutObject objectName data in
  match err with
  | Some e => ret ("", Some (Errorf_v "failed to upload file to MinIO: " e))
  | None =>
      let url :=
        "http://" +:+ S3Endpoint r +:+ "/" +:+ S3Bucket r +:+ "/"
        +:+ objectName in
      ret (url, None)
  end.

Definition DeleteFile (pars : GetPars.t) : M Store (option error) :=
  let objectName := filepath_Join "uploads" (GetPars.ID pars) in
  let* err := minio_RemoveObject objectName in
  match err with
  | Some e =>
      ret (Some (Errorf_v "failed to delete object from MinIO: " e))
  | None => ret None
  end.

#[export] Instance Repo : RepoS3 Store := {
  RepoS3_GetFile := GetFile;
  RepoS3_UploadFile := UploadFile;
  RepoS3_DeleteFile := DeleteFile;
}.
End repo.

End s3.

(** ** The data-item service (package [service]) *)

Module service.
Section service.
Context {D B : Type} {repoDB : RepoDBI D} {repoS3 : RepoS3 B}.

Definition List (pars : ListPars.t)
  : M (D * B) (list DataItems.t * Z * option error) :=
  onFst (RepoDBI_List pars).

Definition Get (pars : GetPars.t)
  : M (D * B) (option DataItems.t * bool * option error) :=
  let* (obj, found, err) := onFst (RepoDBI_Get pars) in
  match err with
  | Some e => ret (None, false, Some (Wrapf "get data from PostgreSQL - " e))
  | None =>
      if negb found then ret (None, false, None)
      else
        match obj with
        | None => panic
        | Some obj =>
            if String.eqb (DataItems.Type_ obj) BinaryDataType then
              let* (file, found', err) :=
                onSnd (RepoS3_GetFile (GetPars.ofID (DataItems.ID obj))) in
              match err with
              | Some e =>
                  ret (None, false, Some (Wrapf "get data from MinIO - " e))
              | None =>
                  if negb found' then ret (None, false, None)
                  else
                    ret (Some (DataItems.mk
                                 (DataItems.ID obj) (DataItems.UserID obj)
                                 (DataItems.Type_ obj) file
                                 (DataItems.Meta obj) (DataItems.URL obj)
                                 (DataItems.CreatedAt obj)
                                 (DataItems.UpdatedAt obj)),
                         found, None)
              end
            else ret (Some obj, found, None)
        end
  end.

Definition Update (pars : GetPars.t) (obj : Edit.t)
  : M (D * B) (option error) :=
  let* (existingObj, found, err) := onFst (RepoDBI_Get pars) in
  match err with
  | Some e => ret (Some (Wrapf "get data from PostgreSQL - " e))
  | None =>
      if negb found then ret (Some (Err "record not found"))
      else
        match existingObj with
        | None => panic
        | Some existingObj =>
            match String.eqb (DataItems.Type_ existingObj) BinaryDataType,
                  Edit.Data obj with
            | true, Some data =>
                let* (url, err) :=
                  onSnd (RepoS3_UploadFile (GetPars.ID pars) data) in
                match err with
                | Some e => ret (Some (Wrapf "upload file to MinIO - " e))
                | None => onFst (RepoDBI_Update pars (Edit.withURL obj url))
                end
            | _, _ => onFst (RepoDBI_Update pars obj)
            end
        end
  end.

Definition Create (obj : Edit.t) : M (D * B) (option error) :=
  let* (tx, err) := onFst RepoDBI_BeginTx in
  match err with
  | Some e => ret (Some (Wrapf "begin transaction - " e))
  | None =>
      defer None
        (fun recovered err =>
           onFst (RepoDBI_HandleTxCompletion tx recovered err))
        (let* err := onFst (RepoDBI_Create obj) in
         match err with
         | Some e =>
             ret (Some (Wrapf "create data in PostgreSQL - " e), Some e)
         | None =>
             match Edit.Type_ obj with
             | None => panic
             | Some type_ =>
                 if String.eqb type_ BinaryDataType then
                   match Edit.Data obj with
                   | None => panic
                   | Some data =>
                       let* (url, err) :=
                         onSnd (RepoS3_UploadFile (Edit.ID obj) data) in
                       match err with
                       | Some e =>
                           ret (Some (Wrapf "upload file to MinIO - " e),
                                Some e)
                       | None =>
                           let* err :=
                             Update (GetPars.ofID (Edit.ID obj))
                                    (Edit.withURL Edit.zero url) in
                           match err with
                           | Some e =>
                               let* _ :=
                                 onSnd (RepoS3_DeleteFile
                                          (GetPars.ofID (Edit.ID obj))) in
                               ret (Some (Wrapf "delete file in MinIO - " e),
                                    Some e)
                           | None => ret (None, None)
                           end
                       end
                   end
                 else ret (None, None)
             end
         end)
  end.

Definition Delete (pars : GetPars.t) : M (D * B) (option error) :=
  let* (existingObj, found, err) := onFst (RepoDBI_Get pars) in
  match err with
  | Some e => ret (Some (Wrapf "get data from PostgreSQL - " e))
  | None =>
      if negb found then ret (Some (Err "record not found"))
      else
        match existingObj with
        | None => panic
        | Some existingObj =>
            let* err :=
              (if String.eqb (DataItems.Type_ existingObj) BinaryDataType
               then onSnd (RepoS3_DeleteFile
                             (GetPars.ofID (DataItems.ID existingObj)))
               else ret None) in
            match err with
            | Some e => ret (Some (Wrapf "delete file to MinIO - " e))
            | None => onFst (RepoDBI_Delete pars)
            end
        end
  end.

End service.
End service.

(** ** The data-item use cases (package [dataitems]) *)

Module dataitems.
Section usecase.
Context {D B : Type} {repoDB : RepoDBI D} {repoS3 : RepoS3 B}.

Definition GetData (obj : GetPars.t) := service.Get (D:=D) (B:=B) obj.

Definition ListAll (obj : ListPars.t) := service.List (D:=D) (B:=B) obj.

Definition CreateData (obj : Edit.t) := service.Create (D:=D) (B:=B) obj.

Definition EditData (obj : Edit.t) : M (D * B) (option error) :=
  service.Update (GetPars.ofID (Edit.ID obj)) obj.

Definition DeleteData (obj : GetPars.t) := service.Delete (D:=D) (B:=B) obj.

End usecase.
End dataitems.

(** ** The JWT guard (package [auth/service]) *)

Module auth.

(** [metadata.MD] and the incoming context: [None] when the context
    carries no metadata. *)
Definition MD : Type := gmap string (list string).
Definition context : Type := option MD.

Definition metadata_FromIncomingContext (ctx : context) : option MD := ctx.

Definition defaultJWTCookieExpiration : Z := 24 * 3600.

Record Auth : Type := mkAuth { JwtSecret : string }.

(** [s[:n]]: a run-time panic when [n] exceeds the length. *)
Definition slice_to (s : string) (n : nat) : option string :=
  if (n <=? String.length s)%nat then Some (substring 0 n s) else None.

(** [s[n:]], for [n] within the length. *)
Definition slice_from (s : string) (n : nat) : string :=
  substring n (String.length s - n) s.

Section auth.
Context {ext : Externals}.

(** The [for _, cookieStr := range mdToken] loop; the result is
    [jwtToken], which is still empty when no entry matched. *)
Fixpoint find_bearer {W} (mdToken : list string) : M W string :=
  match mdToken with
  | [] => ret ""
  | cookieStr :: rest =>
      match slice_to cookieStr 7 with
      | None => panic
      | Some prefix =>
          if String.eqb prefix "Bearer "
          then ret (slice_from cookieStr 7)
          else find_bearer rest
      end
  end.

Definition GetUserIDFromContext {W} (a : Auth) (ctx : context)
  : M W (string * option error) :=
  match metadata_FromIncomingContext ctx with
  | None => ret ("", Some (Err "missing metadata in context"))
  | Some md =>
      let mdToken := default [] (md !! "token") in
      if (length mdToken =? 0)%nat
      then ret ("", Some (Err "missing cookies in metadata"))
      else
        let* jwtToken := find_bearer mdToken in
        if String.eqb jwtToken ""
        then ret ("", Some (Err "jwt cookie not found"))
        else
          let '(token, err) := jwt_ParseWithClaims jwtToken (JwtSecret a) in
          match err with
          | Some _ => ret ("", Some (Err "invalid jwt token"))
          | None =>
              if token_Valid token
              then ret (UID (token_Claims token), None)
              else ret ("", Some (Err "invalid token"))
          end
  end.

(** [now] is the reading of [time.Now()]. *)
Definition NewToken (a : Auth) (now : Z) (u : users_model.User.t)
  : string * option error :=
  let claims :=
    mkClaims (Some (now + defaultJWTCookieExpiration))
             (users_model.User.UserID u) in
  let '(signedToken, err) := jwt_SignedString claims (JwtSecret a) in
  match err with
  | Some e => ("", Some (Wrapf "cannot sign jwt token: " e))
  | None => (signedToken, None)
  end.

Definition CreateToken (a : Auth) (now : Z) (u : users_model.User.t)
  : string * option error :=
  let '(token, err) := NewToken a now u in
  match err with
  | Some e => ("", Some (Wrapf "cannot create auth token: " e))
  | None => (token, None)
  end.
End auth.

End auth.

(** ** Accounts: repository, service and use case (packages [users/...]) *)

Module users_pg.

Definition Get_where (pars : users_model.GetPars.t) (r : pgx.UserRow) : bool :=
  (if nonempty (users_model.GetPars.UserID pars)
   then String.eqb (pgx.u_id r) (users_model.GetPars.UserID pars) else true)
  && (if nonempty (users_model.GetPars.Username pars)
      then String.eqb (pgx.u_username r) (users_model.GetPars.Username pars)
      else true).

Definition Scan (r : pgx.UserRow) : users_model.User.t :=
  users_model.User.mk (pgx.u_id r) (pgx.u_username r) (pgx.u_password_hash r)
    (pgx.u_created_at r) (pgx.u_updated_at r).

Definition Get (pars : users_model.GetPars.t)
  : M pgx.DB (option users_model.User.t * bool * option error) :=
  if negb (users_model.GetPars.IsValid pars)
  then ret (None, false, Some errs.InvalidInput)
  else
    fun db =>
      match head (filter (Get_where pars) (pgx.users db)) with
      | None => Done (None, false, None) db
      | Some r => Done (Some (Scan r), true, None) db
      end.

End users_pg.

Module users_service.
Section service.
Context {ext : Externals}.

Definition IsValidPassword (password plainPassword : string) : bool :=
  let err := bcrypt_CompareHashAndPassword password plainPassword in
  match err with None => true | Some _ => false end.

Definition Get (pars : users_model.GetPars.t) := users_pg.Get pars.
End service.
End users_service.

Module users.
Section usecase.
Context {ext : Externals}.

(** [now] is the reading of [time.Now()] when the token is made. *)
Definition Login (a : auth.Auth) (now : Z) (username password : string)
  : M pgx.DB (option string * option error) :=
  if String.eqb username "" || String.eqb password ""
  then ret (None, Some errs.InvalidInput)
  else
    let* (user, found, err) :=
      users_service.Get (users_model.GetPars.mk "" username) in
    match err with
    | Some e => ret (None, Some e)
    | None =>
        if negb found then ret (None, Some errs.UserNotFound)
        else
          match user with
          | None => panic
          | Some user =>
              let isValidPassword :=
                users_service.IsValidPassword
                  (users_model.User.PasswordHash user) password in
              if negb isValidPassword
              then ret (None, Some errs.InvalidPassword)
              else
                let '(token, err) := auth.CreateToken a now user in
                match err with
                | Some e => ret (None, Some e)
                | None => ret (Some token, None)
                end
          end
    end.

Definition GetUserIDFromContext {W} (a : auth.Auth) (ctx : auth.context)
  : M W (string * option error) :=
  auth.GetUserIDFromContext a ctx.
End usecase.
End users.

(** ** The gRPC handlers (package [grpc]) *)

Module grpc.

(** [pb.DataItem]; [Data] is [None] for a nil slice. *)
Record pb_DataItem : Type := mkDataItem {
  pb_Id : string;
  pb_Type : string;
  pb_Data : option (list byte);
  pb_Meta : string;
  pb_CreatedAt : Z;
  pb_UpdatedAt : Z;
}.

Record pb_GetDataRequest : Type := mkGetDataRequest {
  req_Id : string;
  req_Type : string;
  req_URL : string;
}.

Definition to_pb (obj : DataItems.t) : pb_DataItem :=
  mkDataItem (DataItems.ID obj) (DataItems.Type_ obj)
    (Some (DataItems.Data obj)) (DataItems.Meta obj)
    (DataItems.CreatedAt obj) (DataItems.UpdatedAt obj).

Section handlers.
Context {ext : Externals} {D B : Type}
        {repoDB : RepoDBI D} {repoS3 : RepoS3 B}.
Variable a : auth.Auth.

Definition GetData (ctx : auth.context) (req : pb_GetDataRequest)
  : M (D * B) (option (list pb_DataItem) * option error) :=
  let* (userID, err) := users.GetUserIDFromContext a ctx in
  match err with
  | Some e => ret (None, Some e)
  | None =>
      let* (obj, found, err) :=
        dataitems.GetData
          (GetPars.mk (req_Id req) userID (req_Type req) "" (req_URL req)) in
      match err with
      | Some e => ret (None, Some e)
      | None =>
          if negb found then ret (Some [], None)
          else
            match obj with
            | None => panic
            | Some obj => ret (Some [to_pb obj], None)
            end
      end
  end.

Definition ListData (ctx : auth.context)
  : M (D * B) (option (list pb_DataItem) * option error) :=
  let* (userID, err) := users.GetUserIDFromContext a ctx in
  match err with
  | Some e => ret (None, Some e)
  | None =>
      let* (result, _, err) :=
        dataitems.ListAll
          (ListPars.mk None None (Some userID) None None None None
                       None None None None) in
      match err with
      | Some e => ret (None, Some e)
      | None => ret (Some (map to_pb result), None)
      end
  end.

(** [req.GetData()] is nil when the request carries no item; reading
    [data.Id] then panics. [&data.Data] is never nil, but it points to a nil
    slice when the item carries no payload. The driver binds a pointer to a
    nil slice as NULL, as it binds a nil pointer, and [Create] of the
    engine reads [*obj.Data] only after the insert has gone through, which
    the NOT NULL column refuses for a NULL; so the pointer to a nil slice is
    passed on as [None]. *)
Definition CreateData (ctx : auth.context) (req : option pb_DataItem)
  : M (D * B) (option string * option error) :=
  let* (userID, err) := users.GetUserIDFromContext a ctx in
  match err with
  | Some e => ret (None, Some e)
  | None =>
      match req with
      | None => panic
      | Some data =>
          let* err :=
            dataitems.CreateData
              (Edit.mk (pb_Id data) (Some userID) (Some (pb_Type data))
                       (pb_Data data)
                       (Some (pb_Meta data)) None None None) in
          match err with
          | Some e => ret (None, Some e)
          | None => ret (Some "Success", None)
          end
      end
  end.

Definition UpdateData (ctx : auth.context) (req : option pb_DataItem)
  : M (D * B) (option string * option error) :=
  let* (userID, err) := users.GetUserIDFromContext a ctx in
  match err with
  | Some e => ret (None, Some e)
  | None =>
      match req with
      | None => panic
      | Some data =>
          let editData :=
            Edit.mk (pb_Id data) (Some userID)
              (if nonempty (pb_Type data) then Some (pb_Type data) else None)
              (pb_Data data)
              (if nonempty (pb_Meta data) then Some (pb_Meta data) else None)
              None None None in
          let* err := dataitems.EditData editData in
          match err with
          | Some e => ret (None, Some e)
          | None => ret (Some "Update successful", None)
          end
      end
  end.

Definition DeleteData (ctx : auth.context) (req_Id : string)
  : M (D * B) (option string * option error) :=
  let* (userID, err) := users.GetUserIDFromContext a ctx in
  match err with
  | Some e => ret (None, Some e)
  | None =>
      let* err := dataitems.DeleteData (GetPars.mk req_Id userID "" "" "") in
      match err with
      | Some e => ret (None, Some e)
      | None => ret (Some "Delete successful", None)
      end
  end.

End handlers.
End grpc.

(** ** Stand-ins for the outside libraries, used to run the code on examples *)

Module standin.

Definition digit (c : ascii) : option Z :=
  let n := Z.of_nat (nat_of_ascii c) in
  if (48 <=? n) && (n <=? 57) then Some (n - 48) else None.

Fixpoint digits (s : string) (acc : Z) : option Z :=
  match s with
  | EmptyString => Some acc
  | String c s' =>
      match digit c with
      | Some d => digits s' (10 * acc + d)
      | None => None
      end
  end.

Definition Atoi (s : string) : Z * option error :=
  match s with
  | EmptyString => (0, Some (Err "invalid syntax"))
  | _ =>
      match digits s 0 with
      | Some n => (n, None)
      | None => (0, Some (Err "invalid syntax"))
      end
  end.

Definition Sprintf_d (n : Z) : string :=
  DecimalString.NilZero.string_of_int (Z.to_int n).

Definition Join (a b : string) : string := a +:+ "/" +:+ b.

Definition hash (password : string) : string := "$2a$" +:+ password.

Definition CompareHashAndPassword (h password : string) : option error :=
  if String.eqb h (hash password) then None
  else Some (Err "hashedPassword is not the hash of the given password").

Definition SignedString (c : Claims) (key : string) : string * option error :=
  (key +:+ "." +:+ UID c, None).

Definition ParseWithClaims (tokenString key : string)
  : jwt_Token * option error :=
  let n := String.length key in
  if String.eqb (substring 0 (S n) tokenString) (key +:+ ".")
  then (mkToken (mkClaims None
                   (substring (S n) (String.length tokenString - S n)
                      tokenString)) true, None)
  else (mkToken (mkClaims None "") false, Some (Err "signature is invalid")).

Definition ext : Externals := {|
  filepath_Join := Join;
  strconv_Atoi := Atoi;
  fmt_Sprintf_d := Sprintf_d;
  bcrypt_CompareHashAndPassword := CompareHashAndPassword;
  jwt_SignedString := SignedString;
  jwt_ParseWithClaims := ParseWithClaims;
|}.

Definition repo : s3.S3Repo := s3.mkS3Repo "localhost:9000" "minioadmin" "minioadmin" "mybucket".

(** An empty database with two accounts, and an empty, reachable bucket. *)
Definition db0 : pgx.DB :=
  pgx.mkDB []
    [pgx.mkUserRow "1" "alice" (hash "pw1") 0 0;
     pgx.mkUserRow "2" "bob" (hash "pw2") 0 0]
    100 ∅ 0.

Definition bucket0 : s3.Store := s3.mkStore ∅ true.

Definition w0 : pgx.DB * s3.Store := (db0, bucket0).

(** The same bucket behind an endpoint that cannot be reached. *)
Definition bucket_down : s3.Store := s3.mkStore ∅ false.

(** The object-store repository of the examples. *)
Definition S3 : RepoS3 s3.Store := s3.Repo (ext := ext) repo.

Definition auth0 : auth.Auth := auth.mkAuth "secret".

(** The incoming context of a request that carries the token of [uid]. *)
Definition ctx_of (uid : string) : auth.context :=
  Some {[ "token" := ["Bearer secret." +:+ uid] ]}.

Definition hello : list byte := [x68; x65; x6c; x6c; x6f].
Definition deadbeef : list byte := [xde; xad; xbe; xef].

(** A text item of alice, a binary item with a numeric id, the binary item of
    the spec's scenario, and two items created without meta, as the tests of
    the service create them. *)
Definition text_a1 : Edit.t :=
  Edit.mk "a1" (Some "1") (Some TextDataType) (Some hello) (Some "note")
          None None None.
Definition binary_7 : Edit.t :=
  Edit.mk "7" (Some "1") (Some BinaryDataType) (Some deadbeef) (Some "blob")
          None None None.
Definition binary_b1 : Edit.t :=
  Edit.mk "b1" (Some "1") (Some BinaryDataType) (Some deadbeef) (Some "blob")
          None None None.
Definition card_c1 : Edit.t :=
  Edit.mk "c1" (Some "1") (Some BankCardDataType) (Some hello) None
          None None None.
Definition binary_b2 : Edit.t :=
  Edit.mk "b2" (Some "1") (Some BinaryDataType) (Some deadbeef) None
          None None None.

(** The database some time after alice created [text_a1]. *)
Definition row_a1 : pgx.Row :=
  pgx.mkRow "a1" (Some "1") TextDataType hello (Some "note") "" 100 100.
Definition db_a1 : pgx.DB := pgx.mkDB [row_a1] (pgx.users db0) 500 ∅ 1.
Definition w_a1 : pgx.DB * s3.Store := (db_a1, bucket0).

End standin.

(** ** Predicates used in the statements *)

(** An entry shorter than seven bytes is reached by the loop: it stands
    before every entry that starts with "Bearer ". *)
Definition short_entry_reached (mdToken : list string) : Prop :=
  exists (i : nat) (s : string),
    mdToken !! i = Some s
    /\ (String.length s < 7)%nat
    /\ forall (j : nat) (t : string),
         (j < i)%nat -> mdToken !! j = Some t ->
         auth.slice_to t 7 <> Some "Bearer ".

(** ** Registration (packages [users/...], continued) *)

(** [bcrypt.GenerateFromPassword(password, bcrypt.DefaultCost)]; [salt] is
    the random salt the call draws. *)
Class Bcrypt : Type := {
  bcrypt_GenerateFromPassword : string -> string -> string * option error;
}.

Module accounts_model.
(** [model.Edit] of package [users/model]. *)
Module Edit.
Record t : Type := mk {
  UserID : string;
  Username : option string;
  PasswordHash : option string;
  CreatedAt : option Z;
  UpdatedAt : option Z;
}.
End Edit.
End accounts_model.

Module accounts_pg.

Definition with_users (db : pgx.DB) (tbl : list pgx.UserRow) : pgx.DB :=
  pgx.mkDB (pgx.data_items db) tbl (pgx.now db) (pgx.pending db)
           (pgx.next_tx db).

(** The text of an integer column read into a Go string. *)
Definition int_text (n : Z) : string :=
  DecimalString.NilZero.string_of_int (Z.to_int n).

(** [INSERT INTO users (username, password_hash)] on the pool. [serial] is
    the value the sequence of the [id] column yields for this statement.
    Both columns are NOT NULL, [username] is UNIQUE and [id] is the primary
    key. *)
Definition Create (serial : Z) (obj : accounts_model.Edit.t)
  : M pgx.DB (option error) :=
  fun db =>
    match accounts_model.Edit.Username obj,
          accounts_model.Edit.PasswordHash obj with
    | Some username, Some password_hash =>
        if existsb (fun r => String.eqb (pgx.u_username r) username)
                   (pgx.users db)
           || existsb (fun r => String.eqb (pgx.u_id r) (int_text serial))
                      (pgx.users db)
        then Done (Some (Err "duplicate key value violates unique constraint"))
                  db
        else Done None
               (with_users db
                  (pgx.users db
                   ++ [pgx.mkUserRow (int_text serial) username password_hash
                         (pgx.now db) (pgx.now db)]))
    | _, _ =>
        Done (Some (Err "null value violates not-null constraint")) db
    end.

(** [SELECT EXISTS (SELECT 1 FROM users WHERE username = $1)]. *)
Definition Exists (pars : users_model.GetPars.t)
  : M pgx.DB (bool * option error) :=
  if negb (users_model.GetPars.IsValid pars)
  then ret (false, Some errs.InvalidInput)
  else
    fun db =>
      Done (existsb (fun r => String.eqb (pgx.u_username r)
                                (users_model.GetPars.Username pars))
                    (pgx.users db), None) db.

End accounts_pg.

Module accounts_service.
Section service.
Context {hasher : Bcrypt}.

Definition HashPassword (salt password : string) : string * option error :=
  let '(hashedPassword, err) := bcrypt_GenerateFromPassword salt password in
  match err with
  | Some e => ("", Some (Wrapf "can not hash password - " e))
  | None => (hashedPassword, None)
  end.

Definition Exists (pars : users_model.GetPars.t) := accounts_pg.Exists pars.

Definition IsLoginTaken (username : string) : M pgx.DB (bool * option error) :=
  Exists (users_model.GetPars.mk "" username).

Definition Create (serial : Z) (obj : accounts_model.Edit.t) :=
  accounts_pg.Create serial obj.

End service.
End accounts_service.

Module accounts.
Section usecase.
Context {ext : Externals} {hasher : Bcrypt}.

(** [salt] and [serial] are what the hashing call and the id sequence
    yield during the call. *)
Definition Register (salt : string) (serial : Z) (username password : string)
  : M pgx.DB (option error) :=
  if String.eqb username "" || String.eqb password ""
  then ret (Some errs.InvalidInput)
  else
    let* (taken, err) := accounts_service.IsLoginTaken username in
    match err with
    | Some e => ret (Some e)
    | None =>
        if taken then ret (Some errs.UsernameAlreadyExists)
        else
          let '(passwordHash, err) :=
            accounts_service.HashPassword salt password in
          match err with
          | Some e => ret (Some e)
          | None =>
              let* err :=
                accounts_service.Create serial
                  (accounts_model.Edit.mk "" (Some username)
                     (Some passwordHash) None None) in
              match err with
              | Some e => ret (Some e)
              | None =>
                  let* (createdUser, _, err) :=
                    users_service.Get (users_model.GetPars.mk "" username) in
                  match err with
                  | Some e => ret (Some e)
                  | None =>
                      match createdUser with
                      | None => ret (Some errs.UserNotFound)
                      | Some _ => ret None
                      end
                  end
              end
          end
    end.

End usecase.
End accounts.

Module standin_bcrypt.
(** A hasher that agrees with [standin.CompareHashAndPassword]. *)
Definition hasher : Bcrypt := {|
  bcrypt_GenerateFromPassword :=
    fun (_ : string) (password : string) => (standin.hash password, None);
|}.
End standin_bcrypt.

(** ** Sample data for the further properties *)

Module sample.

(** The row of a binary item of alice after its upload, a text item of
    bob, and a row whose owner column is NULL. *)
Definition row_7 : pgx.Row :=
  pgx.mkRow "7" (Some "1") BinaryDataType standin.deadbeef (Some "blob")
            "http://localhost:9000/mybucket/uploads/7" 100 100.
Definition row_b9 : pgx.Row :=
  pgx.mkRow "b9" (Some "2") TextDataType standin.hello (Some "memo") ""
            200 200.
Definition row_n1 : pgx.Row :=
  pgx.mkRow "n1" None TextDataType standin.hello (Some "left") "" 300 300.

Definition db_7 : pgx.DB :=
  pgx.mkDB [standin.row_a1; row_7; row_b9] (pgx.users standin.db0) 500 ∅ 1.
Definition db_n1 : pgx.DB :=
  pgx.mkDB [standin.row_a1; row_n1] (pgx.users standin.db0) 500 ∅ 1.

(** A database with one open transaction that holds no statement. *)
Definition db_open : pgx.DB :=
  pgx.mkDB [standin.row_a1] (pgx.users standin.db0) 500 {[ 0%nat := [] ]} 1.

(** The bucket that holds the object of [row_7], reachable and not. *)
Definition bucket_7 : s3.Store :=
  s3.mkStore {[ "uploads/7" := standin.deadbeef ]} true.
Definition bucket_7_down : s3.Store :=
  s3.mkStore {[ "uploads/7" := standin.deadbeef ]} false.

(** Partial updates: a new payload, a new meta, and nothing at all. *)
Definition new_payload : Edit.t :=
  Edit.mk "7" None None (Some standin.hello) None None None None.
Definition new_meta : Edit.t :=
  Edit.mk "a1" None None None (Some "changed") None None None.

(** Metadata with a cookie before the credential. *)
Definition md_cookie : auth.MD :=
  {[ "token" := ["session=abc"; "Bearer secret.1"; "x"] ]}.
Definition md_no_bearer : auth.MD := {[ "token" := ["session=abc"] ]}.

End sample.

(** * Properties *)

(** ** Basic facts *)

Lemma nonempty_false (s : string) : nonempty s = false <-> s = "".
Proof.
  unfold nonempty. rewrite negb_false_iff. apply String.eqb_eq.
Qed.

Lemma nonempty_true (s : string) : nonempty s = true <-> s <> "".
Proof.
  unfold nonempty. rewrite negb_true_iff. apply String.eqb_neq.
Qed.

Lemma IsValid_false (pars : GetPars.t) :
  GetPars.IsValid pars = false <->
  GetPars.ID pars = "" /\ GetPars.UserID pars = "" /\ GetPars.Type_ pars = ""
  /\ GetPars.Meta pars = "" /\ GetPars.URL pars = "".
Proof.
  unfold GetPars.IsValid. rewrite !orb_false_iff, !nonempty_false. tauto.
Qed.

(** ** The empty-filter gate of the Metadata Store *)

Section empty_filter.
Context {B : Type} {repoS3 : RepoS3 B}.
#[local] Existing Instance pg.Repo.

(** C7, as amended. A filter with none of the five fields id, owner id,
    type, meta and url set makes [Get], [Update] and [Delete] of the
    Metadata Store fail with [InvalidInput]; the database is returned as it
    was, the answer does not depend on its contents, and the service
    built on the repository leaves the Object Store as it was too. *)
Theorem empty_filter_InvalidInput (pars : GetPars.t) (obj : Edit.t)
    (db : pgx.DB) (b : B) :
  GetPars.ID pars = "" -> GetPars.UserID pars = "" ->
  GetPars.Type_ pars = "" -> GetPars.Meta pars = "" ->
  GetPars.URL pars = "" ->
  pg.Get pars db = Done (None, false, Some errs.InvalidInput) db
  /\ pg.Update pars obj db = Done (Some errs.InvalidInput) db
  /\ pg.Delete pars db = Done (Some errs.InvalidInput) db
  /\ service.Get pars (db, b)
     = Done (None, false,
             Some (Wrapf "get data from PostgreSQL - " errs.InvalidInput))
            (db, b)
  /\ service.Update pars obj (db, b)
     = Done (Some (Wrapf "get data from PostgreSQL - " errs.InvalidInput))
            (db, b)
  /\ service.Delete pars (db, b)
     = Done (Some (Wrapf "get data from PostgreSQL - " errs.InvalidInput))
            (db, b).
Proof.
  intros H1 H2 H3 H4 H5.
  assert (Hv : GetPars.IsValid pars = false) by (apply IsValid_false; auto).
  assert (HG : pg.Get pars db = Done (None, false, Some errs.InvalidInput) db).
  { unfold pg.Get. rewrite Hv. reflexivity. }
  repeat split.
  - exact HG.
  - unfold pg.Update. rewrite Hv. reflexivity.
  - unfold pg.Delete. rewrite Hv. reflexivity.
  - unfold service.Get, bind, onFst. simpl. rewrite HG. reflexivity.
  - unfold service.Update, bind, onFst. simpl. rewrite HG. reflexivity.
  - unfold service.Delete, bind, onFst. simpl. rewrite HG. reflexivity.
Qed.
End empty_filter.

(** ** Soft and hard not-found *)

Lemma filter_no_match {A} (f : A -> bool) (l : list A) :
  Forall (fun x => f x = false) l -> filter f l = [].
Proof.
  induction 1 as [|x l Hx _ IH]; [reflexivity|].
  rewrite filter_cons_False; [exact IH|].
  rewrite Hx. auto.
Qed.

Lemma pg_Get_no_match (pars : GetPars.t) (db : pgx.DB) :
  GetPars.IsValid pars = true ->
  Forall (fun r => pgx.where_ (pg.Get_conds pars) r = false)
         (pgx.data_items db) ->
  pg.Get pars db = Done (None, false, None) db.
Proof.
  intros Hv Hno. unfold pg.Get. rewrite Hv. simpl.
  unfold bind, pgx.Pool_QueryRow.
  rewrite (filter_no_match _ _ Hno). reflexivity.
Qed.

Section not_found.
Context {B : Type} {repoS3 : RepoS3 B}.
#[local] Existing Instance pg.Repo.

End not_found.

(** ** Partial update of the Metadata Store *)

Lemma lookup_map {A C} (f : A -> C) (l : list A) (i : nat) :
  map f l !! i = f <$> (l !! i).
Proof.
  revert i. induction l as [|x l IH]; intros [|i]; simpl; auto.
Qed.

(** What [Update_sets] leaves alone in a row. *)
Lemma Update_sets_frame (obj : Edit.t) (r : pgx.Row) :
  let r' := fold_left pgx.assign (pg.Update_sets obj) r in
  pgx.id r' = pgx.id r
  /\ pgx.created_at r' = pgx.created_at r
  /\ (Edit.UserID obj = None -> pgx.user_id r' = pgx.user_id r)
  /\ (Edit.Type_ obj = None -> pgx.type_ r' = pgx.type_ r)
  /\ (Edit.Data obj = None -> pgx.data r' = pgx.data r)
  /\ (Edit.Meta obj = None -> pgx.meta r' = pgx.meta r)
  /\ (Edit.URL obj = None -> pgx.url r' = pgx.url r)
  /\ (Edit.UpdatedAt obj = None -> pgx.updated_at r' = pgx.updated_at r).
Proof.
  destruct obj as [i [u|] [t|] [d|] [m|] [l|] ca [ua|]];
    cbn; repeat split; intros; congruence.
Qed.

(** C8, as amended. After [Update(filter, partial)] on the Metadata Store
    every row is still at its place with its id and creation time, and each
    field the partial leaves unset has the value it had; this includes
    [updated_at], which changes only when the partial carries [UpdatedAt]. *)
Theorem Update_leaves_unset_fields (pars : GetPars.t) (obj : Edit.t)
    (db db' : pgx.DB) (err : option error) (i : nat) (r : pgx.Row) :
  pg.Update pars obj db = Done err db' ->
  pgx.data_items db !! i = Some r ->
  exists r',
    pgx.data_items db' !! i = Some r'
    /\ pgx.id r' = pgx.id r
    /\ pgx.created_at r' = pgx.created_at r
    /\ (Edit.UserID obj = None -> pgx.user_id r' = pgx.user_id r)
    /\ (Edit.Type_ obj = None -> pgx.type_ r' = pgx.type_ r)
    /\ (Edit.Data obj = None -> pgx.data r' = pgx.data r)
    /\ (Edit.Meta obj = None -> pgx.meta r' = pgx.meta r)
    /\ (Edit.URL obj = None -> pgx.url r' = pgx.url r)
    /\ (Edit.UpdatedAt obj = None -> pgx.updated_at r' = pgx.updated_at r).
Proof.
  intros HU Hr. unfold pg.Update in HU.
  destruct (GetPars.IsValid pars); cbn [negb] in HU; cbv zeta in HU.
  2: { injection HU as _ <-. exists r. repeat split; auto. }
  destruct (pgx.ToSql _) eqn:Hsql.
  { injection HU as _ <-. exists r. repeat split; auto. }
  unfold pgx.Pool_Exec in HU. cbn [pgx.run] in HU.
  injection HU as _ <-. cbn [pgx.with_data_items pgx.data_items].
  rewrite lookup_map, Hr. simpl.
  destruct (pgx.where_ (pg.Update_conds pars) r).
  - eexists. split; [reflexivity|]. apply Update_sets_frame.
  - exists r. repeat split; auto.
Qed.

(** ** The guard on short token entries *)

Lemma slice_to_None (s : string) (n : nat) :
  auth.slice_to s n = None <-> (String.length s < n)%nat.
Proof.
  unfold auth.slice_to. destruct (Nat.leb_spec n (String.length s)).
  - split; [discriminate | lia].
  - split; [auto | reflexivity].
Qed.

Lemma short_entry_reached_cons (s : string) (rest : list string) :
  auth.slice_to s 7 <> None ->
  auth.slice_to s 7 <> Some "Bearer " ->
  short_entry_reached (s :: rest) <-> short_entry_reached rest.
Proof.
  intros Hlen Hpre. split.
  - intros (i & t & Hi & Hshort & Hbefore). destruct i as [|i].
    + simpl in Hi. injection Hi as ->.
      exfalso. apply Hlen. apply slice_to_None. exact Hshort.
    + exists i, t. repeat split; auto.
      intros j u Hj Hu. apply (Hbefore (S j) u); [lia | exact Hu].
  - intros (i & t & Hi & Hshort & Hbefore).
    exists (S i), t. repeat split; auto.
    intros [|j] u Hj Hu.
    + simpl in Hu. injection Hu as <-. exact Hpre.
    + apply (Hbefore j u); [lia | exact Hu].
Qed.

Section guard.
Context {ext : Externals}.

Lemma find_bearer_cases {W} (mdToken : list string) (w : W) :
  (short_entry_reached mdToken /\ auth.find_bearer mdToken w = Panic w)
  \/ (~ short_entry_reached mdToken
      /\ exists t, auth.find_bearer mdToken w = Done t w).
Proof.
  induction mdToken as [|s rest IH].
  - right. split; [|exists ""; reflexivity].
    intros (i & t & Hi & _). destruct i; discriminate.
  - simpl. destruct (auth.slice_to s 7) as [prefix|] eqn:Hs.
    + destruct (String.eqb prefix "Bearer ") eqn:Hp.
      * apply String.eqb_eq in Hp. subst prefix.
        right. split; [|eexists; reflexivity].
        intros (i & t & Hi & Hshort & Hbefore). destruct i as [|i].
        -- simpl in Hi. injection Hi as ->.
           apply slice_to_None in Hshort. congruence.
        -- apply (Hbefore 0%nat s); [lia | reflexivity | exact Hs].
      * apply String.eqb_neq in Hp.
        assert (Hiff : short_entry_reached (s :: rest)
                       <-> short_entry_reached rest).
        { apply short_entry_reached_cons; congruence. }
        destruct IH as [[HP HF]|[HP HF]]; [left|right]; split; tauto.
    + left. split; [|reflexivity].
      exists 0%nat, s. repeat split; auto.
      * apply slice_to_None. exact Hs.
      * intros j t Hj. lia.
Qed.

(** C10, as amended. [GetUserIDFromContext] panics exactly when the loop
    over the 'token' entries reaches an entry shorter than seven bytes, that
    is, when such an entry stands before every entry that starts with
    "Bearer "; in every other case it returns normally, a user id or an
    error, and so it does whenever every entry has at least seven bytes. *)
Theorem GetUserIDFromContext_panics_iff {W} (a : auth.Auth) (md : auth.MD)
    (w : W) :
  let mdToken := default [] (md !! "token") in
  (auth.GetUserIDFromContext a (Some md) w = Panic w
   <-> short_entry_reached mdToken)
  /\ (~ short_entry_reached mdToken ->
      exists r, auth.GetUserIDFromContext a (Some md) w = Done r w)
  /\ (Forall (fun s => (7 <= String.length s)%nat) mdToken ->
      exists r, auth.GetUserIDFromContext a (Some md) w = Done r w).
Proof.
  intros mdToken.
  assert (Hret : ~ short_entry_reached mdToken ->
                 exists r, auth.GetUserIDFromContext a (Some md) w = Done r w).
  { intros HnP. unfold auth.GetUserIDFromContext. simpl. fold mdToken.
    destruct (length mdToken =? 0)%nat; [eexists; reflexivity|].
    unfold bind.
    destruct (find_bearer_cases mdToken w) as [[HP _]|[_ [t Ht]]]; [tauto|].
    rewrite Ht. destruct (String.eqb t ""); [eexists; reflexivity|].
    destruct (jwt_ParseWithClaims t (auth.JwtSecret a)) as [token [e|]];
      [eexists; reflexivity|].
    destruct (token_Valid token); eexists; reflexivity. }
  split; [|split].
  - split.
    + intros Hpanic.
      destruct (find_bearer_cases mdToken w) as [[HP _]|[HnP _]]; [exact HP|].
      destruct (Hret HnP) as [r Hr]. congruence.
    + intros HP. unfold auth.GetUserIDFromContext. simpl. fold mdToken.
      destruct (length mdToken =? 0)%nat eqn:Hlen.
      * apply Nat.eqb_eq in Hlen. destruct mdToken; [|discriminate].
        destruct HP as (i & s & Hi & _). destruct i; discriminate.
      * unfold bind.
        destruct (find_bearer_cases mdToken w) as [[_ HF]|[HnP _]]; [|tauto].
        rewrite HF. reflexivity.
  - exact Hret.
  - intros Hall. apply Hret.
    intros (i & s & Hi & Hshort & _).
    rewrite Forall_forall in Hall.
    assert (Hin : s ∈ mdToken) by (apply list_elem_of_lookup; eauto).
    specialize (Hall s Hin). simpl in Hall. lia.
Qed.
End guard.

(** ** Login *)



Section login.
Context {ext : Externals}.

Lemma users_Get_by_name (username : string) (db : pgx.DB) :
  username <> "" ->
  users_service.Get (users_model.GetPars.mk "" username) db
  = match head (filter (fun r => String.eqb (pgx.u_username r) username)
                       (pgx.users db)) with
    | None => Done (None, false, None) db
    | Some r => Done (Some (users_pg.Scan r), true, None) db
    end.
Proof.
  intros Hn. apply nonempty_true in Hn.
  unfold users_service.Get, users_pg.Get, users_model.GetPars.IsValid.
  cbn [users_model.GetPars.UserID users_model.GetPars.Username].
  rewrite Hn. cbn [nonempty String.eqb negb orb].
  unfold users_pg.Get_where.
  cbn [users_model.GetPars.UserID users_model.GetPars.Username].
  rewrite Hn. cbn [nonempty String.eqb negb andb]. reflexivity.
Qed.


Lemma Login_nonempty (a : auth.Auth) (now : Z) (username password : string)
    (db : pgx.DB) :
  username <> "" -> password <> "" ->
  users.Login a now username password db
  = match head (filter (fun r => String.eqb (pgx.u_username r) username)
                       (pgx.users db)) with
    | None => Done (None, Some errs.UserNotFound) db
    | Some r =>
        match bcrypt_CompareHashAndPassword (pgx.u_password_hash r) password
        with
        | Some _ => Done (None, Some errs.InvalidPassword) db
        | None =>
            match jwt_SignedString
                    (mkClaims (Some (now + 24 * 3600)) (pgx.u_id r))
                    (auth.JwtSecret a) with
            | (_, Some e) =>
                Done (None,
                      Some (Wrapf "cannot create auth token: "
                              (Wrapf "cannot sign jwt token: " e))) db
            | (t, None) => Done (Some t, None) db
            end
        end
    end.
Proof.
  intros Hu Hp. unfold users.Login.
  apply String.eqb_neq in Hp. rewrite Hp.
  pose proof Hu as Hu'. apply String.eqb_neq in Hu'. rewrite Hu'.
  cbn [orb]. unfold bind. rewrite (users_Get_by_name username db Hu).
  destruct (head _) as [r|]; [|reflexivity].
  cbn [negb]. unfold users_service.IsValidPassword.
  cbn [users_pg.Scan users_model.User.PasswordHash].
  destruct (bcrypt_CompareHashAndPassword _ _); [reflexivity|].
  cbn [negb]. unfold auth.CreateToken, auth.NewToken.
  cbn [users_model.User.UserID]. unfold auth.defaultJWTCookieExpiration.
  destruct (jwt_SignedString _ _) as [t [e|]]; reflexivity.
Qed.

End login.

(** ** Compensation in Create *)

Section compensation.
Context {D B : Type} {repoDB : RepoDBI D} {repoS3 : RepoS3 B}.

(** C4. In [Create] of a binary item, over any two repositories: when the
    transaction opens, the row is inserted and the upload succeeds, but the
    nested [Update] that records the URL fails with [e], then [DeleteFile]
    runs for the id of the item, whatever error [derr] it returns is dropped,
    the completion helper runs with the failure, and [Create] returns an
    error that wraps [e]. *)
Theorem Create_compensates_failed_url_update
    (obj : Edit.t) (data : list byte) (w : D * B)
    (tx : pgx.Tx) (d1 d2 : D) (url : string) (b3 : B)
    (e : error) (w4 : D * B) (derr herr : option error) (b5 : B) (d6 : D) :
  Edit.Type_ obj = Some BinaryDataType ->
  Edit.Data obj = Some data ->
  RepoDBI_BeginTx (fst w) = Done (tx, None) d1 ->
  RepoDBI_Create obj d1 = Done None d2 ->
  RepoS3_UploadFile (Edit.ID obj) data (snd w) = Done (url, None) b3 ->
  service.Update (GetPars.ofID (Edit.ID obj)) (Edit.withURL Edit.zero url)
                 (d2, b3) = Done (Some e) w4 ->
  RepoS3_DeleteFile (GetPars.ofID (Edit.ID obj)) (snd w4) = Done derr b5 ->
  RepoDBI_HandleTxCompletion tx false (Some e) (fst w4) = Done herr d6 ->
  service.Create obj w
  = Done (Some (Wrapf "delete file in MinIO - " e)) (d6, b5).
Proof.
  intros Hty Hdata Hbegin Hins Hup Hupd Hdel Hdone.
  unfold service.Create, bind, defer, onFst, onSnd.
  rewrite Hbegin. cbn [fst snd]. rewrite Hins. cbn [fst snd].
  rewrite Hty, String.eqb_refl, Hdata. cbn [fst snd].
  rewrite Hup. cbn [fst snd]. rewrite Hupd, Hdel. cbn [fst snd ret].
  rewrite Hdone. reflexivity.
Qed.
End compensation.

(** ** The transaction opened by Create *)

Lemma existsb_id_fresh (i : string) (tbl : list pgx.Row) :
  (forall r, r ∈ tbl -> pgx.id r <> i) ->
  existsb (fun r => String.eqb (pgx.id r) i) tbl = false.
Proof.
  induction tbl as [|x tbl IH]; intros H; [reflexivity|].
  simpl. rewrite IH by (intros r Hr; apply H; right; exact Hr).
  rewrite orb_false_r. apply String.eqb_neq. apply H. left.
Qed.

(** [Create] and [Update] of the repository run on the pool: the buffers of
    the open transactions are as they were. *)
Lemma pg_Create_runs_on_pool (obj : Edit.t) (db db' : pgx.DB)
    (err : option error) :
  pg.Create obj db = Done err db' -> pgx.pending db' = pgx.pending db.
Proof.
  unfold pg.Create, pgx.Pool_Exec. cbn [pgx.ToSql].
  destruct (pgx.run _ _ _) as [tbl e]. intros H. injection H as _ <-.
  reflexivity.
Qed.

Lemma pg_Update_runs_on_pool (pars : GetPars.t) (obj : Edit.t)
    (db db' : pgx.DB) (err : option error) :
  pg.Update pars obj db = Done err db' -> pgx.pending db' = pgx.pending db.
Proof.
  unfold pg.Update. destruct (negb _); [intros H; injection H as _ <-; auto|].
  cbv zeta. destruct (pgx.ToSql _); [intros H; injection H as _ <-; auto|].
  unfold pgx.Pool_Exec. destruct (pgx.run _ _ _) as [tbl e].
  intros H. injection H as _ <-. reflexivity.
Qed.

(** For contrast: a statement sent on the transaction handle is buffered,
    and a rollback leaves the table as it was. *)
Lemma Tx_Exec_then_Rollback (s : pgx.Stmt) (db : pgx.DB) :
  exists db',
    (let* (tx, _) := pgx.Pool_BeginTx in
     let* _ := pgx.Tx_Exec tx s in
     pgx.Tx_Rollback tx) db = Done None db'
    /\ pgx.data_items db' = pgx.data_items db.
Proof.
  eexists. unfold bind, pgx.Pool_BeginTx, pgx.Tx_Exec, pgx.Tx_Rollback.
  cbn [pgx.pending pgx.next_tx pgx.with_pending].
  rewrite lookup_insert_eq.
  cbn [pgx.pending pgx.next_tx pgx.with_pending pgx.data_items].
  rewrite lookup_insert_eq. split; reflexivity.
Qed.

(** ** Create followed by Get *)

Lemma existsb_false_no_match (i : string) (tbl : list pgx.Row) :
  existsb (fun r => String.eqb (pgx.id r) i) tbl = false ->
  Forall (fun r => pgx.where_ [pgx.EqID i] r = false) tbl.
Proof.
  induction tbl as [|x tbl IH]; simpl; intros H; constructor.
  - apply orb_false_iff in H as [H _]. rewrite H. reflexivity.
  - apply IH. apply orb_false_iff in H as [_ H]. exact H.
Qed.

Lemma Get_conds_ofID (i : string) :
  i <> "" -> pg.Get_conds (GetPars.ofID i) = [pgx.EqID i].
Proof.
  intros H. apply nonempty_true in H. unfold pg.Get_conds, GetPars.ofID.
  cbn [GetPars.ID GetPars.UserID GetPars.Type_]. rewrite H. reflexivity.
Qed.

(** [Get] by id on a table whose only row with that id is the last one. *)
Lemma pg_Get_last (i : string) (r : pgx.Row) (db : pgx.DB)
    (tbl : list pgx.Row) :
  i <> "" -> pgx.id r = i ->
  existsb (fun x => String.eqb (pgx.id x) i) tbl = false ->
  pgx.data_items db = tbl ++ [r] ->
  pg.Get (GetPars.ofID i) db
  = match pg.Scan r with
    | inl result => Done (Some result, true, None) db
    | inr err => Done (None, false, Some err) db
    end.
Proof.
  intros Hi Hr Hfresh Htbl. unfold pg.Get.
  assert (Hv : GetPars.IsValid (GetPars.ofID i) = true).
  { unfold GetPars.IsValid, GetPars.ofID. cbn [GetPars.ID].
    apply nonempty_true in Hi. rewrite Hi. reflexivity. }
  rewrite Hv. cbn [negb]. unfold bind, pgx.Pool_QueryRow.
  rewrite (Get_conds_ofID i Hi), Htbl, filter_app.
  rewrite (filter_no_match _ _ (existsb_false_no_match _ _ Hfresh)).
  rewrite filter_cons_True.
  2: { cbn. rewrite Hr, String.eqb_refl. exact I. }
  cbn [app head]. destruct (pg.Scan r); reflexivity.
Qed.

Section roundtrip.
Context {B : Type} {repoS3 : RepoS3 B}.
#[local] Existing Instance pg.Repo.

(** C3, as amended. For an item whose type is not binary, created with a
    non-empty id and with owner and meta present: when [Create] succeeds,
    the Object Store is as it was before the call, and [Get] by the id then
    returns found = true and a record whose payload is the bytes given to
    [Create]. *)
Theorem Create_then_Get_non_binary
    (obj : Edit.t) (type_ u m : string) (data : list byte)
    (db : pgx.DB) (b : B) (w1 : pgx.DB * B) :
  Edit.Type_ obj = Some type_ -> type_ <> BinaryDataType ->
  Edit.Data obj = Some data ->
  Edit.UserID obj = Some u -> Edit.Meta obj = Some m ->
  Edit.ID obj <> "" ->
  service.Create obj (db, b) = Done None w1 ->
  snd w1 = b
  /\ service.Get (GetPars.ofID (Edit.ID obj)) w1
     = Done (Some (DataItems.mk (Edit.ID obj) u type_ data m ""
                     (pgx.now db) (pgx.now db)), true, None) w1.
Proof.
  intros Hty Hnb Hdata Hu Hm Hid HC.
  apply String.eqb_neq in Hnb.
  unfold service.Create, bind, defer, onFst, onSnd in HC.
  cbn [RepoDBI_BeginTx RepoDBI_Create RepoDBI_HandleTxCompletion pg.Repo] in HC.
  unfold pg.BeginTx, bind, pgx.Pool_BeginTx in HC. cbn [fst snd ret] in HC.
  unfold pg.Create in HC. cbn [pgx.ToSql] in HC. unfold pgx.Pool_Exec in HC.
  cbn [pgx.data_items pgx.now] in HC. rewrite Hty, Hdata in HC.
  cbn [pgx.run] in HC.
  destruct (existsb _ (pgx.data_items db)) eqn:Hfresh.
  { cbn [fst snd ret] in HC.
    unfold pg.HandleTxCompletion, bind, pgx.Tx_Rollback in HC.
    cbn [pgx.with_data_items pgx.pending pgx.next_tx] in HC.
    rewrite lookup_insert_eq in HC. discriminate. }
  cbn [fst snd] in HC. rewrite Hnb in HC. cbn [ret] in HC.
  unfold pg.HandleTxCompletion, pgx.Tx_Commit in HC.
  cbn [fst snd pgx.with_data_items pgx.pending pgx.next_tx pgx.data_items
       pgx.now pgx.users] in HC.
  rewrite lookup_insert_eq in HC. cbn [pgx.run_all] in HC.
  injection HC as <-. split; [reflexivity|].
  unfold service.Get, bind, onFst. cbn [RepoDBI_Get pg.Repo fst snd].
  erewrite pg_Get_last; [|exact Hid| |exact Hfresh|reflexivity];
    [|reflexivity].
  unfold pg.Scan. cbn [pgx.user_id pgx.meta]. rewrite Hu, Hm.
  cbn [negb DataItems.Type_ pgx.type_]. rewrite Hnb. reflexivity.
Qed.
End roundtrip.

(** ** Binary items: Get after Create *)

Section binary_get.
Context {ext : Externals} (r : s3.S3Repo).

(** [GetFile] never reports that it found the object. *)
Lemma GetFile_never_found (pars : GetPars.t) (st st' : s3.Store)
    (file : list byte) (found : bool) (err : option error) :
  s3.GetFile pars st = Done (file, found, err) st' -> found = false.
Proof.
  unfold s3.GetFile. destruct (strconv_Atoi _) as [id e].
  unfold bind, s3.minio_GetObject, ret, s3.io_Copy, log_Fatalln.
  destruct (s3.reachable st); [destruct (s3.objects st !! _)|];
    intros H; try discriminate; injection H; auto.
Qed.

(** So [Get] of the engine never returns found = true with a binary item,
    whatever the relational repository is. *)
Lemma Get_found_is_not_binary {D : Type} {repoDB : RepoDBI D}
    (pars : GetPars.t) (w w' : D * s3.Store) (it : DataItems.t)
    (err : option error) :
  service.Get (repoS3 := s3.Repo r) pars w = Done (Some it, true, err) w' ->
  DataItems.Type_ it <> BinaryDataType.
Proof.
  unfold service.Get, bind, onFst, onSnd.
  destruct (RepoDBI_Get pars w.1) as [[[obj found] e] d| |]; try discriminate.
  destruct e; [discriminate|]. destruct found; [|discriminate].
  cbn [negb]. destruct obj as [obj|]; [|discriminate].
  destruct (String.eqb (DataItems.Type_ obj) BinaryDataType) eqn:Hty.
  - cbn [RepoS3_GetFile s3.Repo fst snd].
    destruct (s3.GetFile _ _) as [[[file found'] e] b| |] eqn:HG;
      try discriminate.
    apply GetFile_never_found in HG. subst found'.
    destruct e; discriminate.
  - intros H. injection H as <- _ _. apply String.eqb_neq. exact Hty.
Qed.
End binary_get.

(** C1, on the code. A binary item with id "7" and payload DE AD BE EF is
    created on an empty database and bucket: [Create] succeeds and the bucket
    holds the four bytes under "uploads/7", but [Get] by that id returns
    found = false and no record, because [GetFile] returns false for the
    found flag after it has read the object. *)
Example binary_Create_then_Get_not_found :
  exists w1,
    service.Create (repoDB := pg.Repo) (repoS3 := standin.S3)
      standin.binary_7 standin.w0 = Done None w1
    /\ s3.objects (snd w1) !! "uploads/7" = Some standin.deadbeef
    /\ service.Get (repoDB := pg.Repo) (repoS3 := standin.S3)
         (GetPars.ofID "7") w1 = Done (None, false, None) w1.
Proof.
  eexists. split; [vm_compute; reflexivity|].
  split; vm_compute; reflexivity.
Qed.

(** With the id "b1" of the spec's scenario, [GetFile] looks for
    "uploads/0", finds nothing to read, and ends the process. *)
Example binary_Get_of_b1_exits :
  exists w1 w2,
    service.Create (repoDB := pg.Repo) (repoS3 := standin.S3)
      standin.binary_b1 standin.w0 = Done None w1
    /\ s3.objects (snd w1) !! "uploads/b1" = Some standin.deadbeef
    /\ service.Get (repoDB := pg.Repo) (repoS3 := standin.S3)
         (GetPars.ofID "b1") w1 = Exit w2.
Proof.
  do 2 eexists. split; [vm_compute; reflexivity|].
  split; vm_compute; reflexivity.
Qed.

(** ** Updates across users *)

(** C2, on the code. The row "a1" belongs to user "1". A request of user
    "2" to update "a1" with a new meta succeeds: [EditData] selects the row
    by id alone, and the identity of the caller, carried in the partial,
    is written into the row. Afterwards the row belongs to user "2" and has
    the new meta. *)
Example UpdateData_by_another_user_rewrites_row :
  grpc.UpdateData (ext := standin.ext) (repoDB := pg.Repo)
    (repoS3 := standin.S3) standin.auth0 (standin.ctx_of "2")
    (Some (grpc.mkDataItem "a1" "" None "taken" 0 0)) standin.w_a1
  = Done (Some "Update successful", None)
      (pgx.mkDB
         [pgx.mkRow "a1" (Some "2") TextDataType standin.hello (Some "taken")
                    "" 100 100]
         (pgx.users standin.db0) 500 ∅ 1,
       standin.bucket0).
Proof. vm_compute. reflexivity. Qed.

(** The same for every database: whoever owns the first row with the id
    named in the partial, [EditData] applies the partial to every row with
    that id, owner included. The row is not binary, or the partial carries no
    payload, so that the Object Store is not involved. *)
Lemma head_filter_first {A} (f : A -> bool) (l1 l2 : list A) (x : A) :
  Forall (fun y => f y = false) l1 -> f x = true ->
  head (filter f (l1 ++ x :: l2)) = Some x.
Proof.
  intros H1 Hx. rewrite filter_app, (filter_no_match _ _ H1).
  rewrite filter_cons_True by (rewrite Hx; exact I). reflexivity.
Qed.

Section cross_user.
Context {B : Type} {repoS3 : RepoS3 B}.
#[local] Existing Instance pg.Repo.

Lemma EditData_rewrites_row_of_any_owner
    (obj : Edit.t) (db : pgx.DB) (b : B) (tbl1 tbl2 : list pgx.Row)
    (r : pgx.Row) (owner caller m : string) :
  pgx.data_items db = tbl1 ++ r :: tbl2 ->
  Forall (fun x => String.eqb (pgx.id x) (Edit.ID obj) = false) tbl1 ->
  pgx.id r = Edit.ID obj -> Edit.ID obj <> "" ->
  pgx.user_id r = Some owner -> pgx.meta r = Some m ->
  pgx.type_ r <> BinaryDataType \/ Edit.Data obj = None ->
  Edit.UserID obj = Some caller ->
  dataitems.EditData obj (db, b)
  = Done None
      (pgx.with_data_items db
         (map (fun x =>
                 if String.eqb (pgx.id x) (Edit.ID obj)
                 then fold_left pgx.assign (pg.Update_sets obj) x else x)
              (pgx.data_items db)), b)
  /\ pgx.user_id (fold_left pgx.assign (pg.Update_sets obj) r) = Some caller.
Proof.
  intros Htbl Hfirst Hid Hne Howner Hmeta Hbin Hcaller.
  assert (Hv : GetPars.IsValid (GetPars.ofID (Edit.ID obj)) = true).
  { unfold GetPars.IsValid, GetPars.ofID. cbn [GetPars.ID].
    apply nonempty_true in Hne. rewrite Hne. reflexivity. }
  assert (HG : pg.Get (GetPars.ofID (Edit.ID obj)) db
               = Done (Some (DataItems.mk (pgx.id r) owner (pgx.type_ r)
                               (pgx.data r) m (pgx.url r) (pgx.created_at r)
                               (pgx.updated_at r)), true, None) db).
  { unfold pg.Get. rewrite Hv. cbn [negb]. unfold bind, pgx.Pool_QueryRow.
    rewrite (Get_conds_ofID _ Hne), Htbl.
    rewrite (head_filter_first _ tbl1 tbl2 r).
    - unfold pg.Scan. rewrite Howner, Hmeta. reflexivity.
    - eapply Forall_impl; [exact Hfirst|]. intros x Hx. cbn. rewrite Hx.
      reflexivity.
    - cbn. rewrite Hid, String.eqb_refl. reflexivity. }
  assert (Hsets : pgx.ToSql (pgx.Update (pg.Update_sets obj)
                    (pg.Update_conds (GetPars.ofID (Edit.ID obj)))) = None).
  { unfold pg.Update_sets. rewrite Hcaller. cbn [pg.opt_set app].
    destruct (Edit.Type_ obj), (Edit.Data obj), (Edit.Meta obj),
      (Edit.UpdatedAt obj), (Edit.URL obj); reflexivity. }
  assert (Hconds : pg.Update_conds (GetPars.ofID (Edit.ID obj))
                   = [pgx.EqID (Edit.ID obj)]).
  { unfold pg.Update_conds, GetPars.ofID.
    cbn [GetPars.ID GetPars.UserID]. apply nonempty_true in Hne.
    rewrite Hne. reflexivity. }
  assert (HU : pg.Update (GetPars.ofID (Edit.ID obj)) obj db
               = Done None
                   (pgx.with_data_items db
                      (map (fun x =>
                              if String.eqb (pgx.id x) (Edit.ID obj)
                              then fold_left pgx.assign (pg.Update_sets obj) x
                              else x)
                           (pgx.data_items db)))).
  { unfold pg.Update. rewrite Hv. cbn [negb]. cbv zeta. rewrite Hsets.
    unfold pgx.Pool_Exec. cbn [pgx.run]. rewrite Hconds.
    f_equal. f_equal. apply map_ext. intros x. cbn.
    rewrite andb_true_r. reflexivity. }
  split.
  - unfold dataitems.EditData, service.Update, bind, onFst.
    cbn [RepoDBI_Get RepoDBI_Update pg.Repo fst snd]. rewrite HG.
    cbn [negb DataItems.Type_ fst snd].
    destruct (String.eqb (pgx.type_ r) BinaryDataType) eqn:Hty,
      (Edit.Data obj) as [data|] eqn:Hdata;
      cbn [fst snd]; try (rewrite HU; reflexivity).
    exfalso. destruct Hbin as [Hbin|Hbin]; [|discriminate].
    apply String.eqb_neq in Hbin. congruence.
  - unfold pg.Update_sets. rewrite Hcaller. cbn [pg.opt_set app].
    destruct (Edit.Type_ obj), (Edit.Data obj), (Edit.Meta obj),
      (Edit.UpdatedAt obj), (Edit.URL obj); reflexivity.
Qed.
End cross_user.

(** The sibling paths do scope by owner: a record [Get] returns for a filter
    that names an owner belongs to that owner, and so does every record
    [List] returns. *)
Lemma head_filter_Some {A} (f : A -> bool) (l : list A) (x : A) :
  head (filter f l) = Some x -> f x = true.
Proof.
  induction l as [|y l IH]; [discriminate|].
  rewrite filter_cons. destruct (decide (f y)) as [Hy|Hy]; [|exact IH].
  simpl. intros H. injection H as <-. apply Is_true_true. exact Hy.
Qed.

Lemma pg_Get_respects_owner (pars : GetPars.t) (db db' : pgx.DB)
    (it : DataItems.t) (found : bool) (err : option error) :
  GetPars.UserID pars <> "" ->
  pg.Get pars db = Done (Some it, found, err) db' ->
  DataItems.UserID it = GetPars.UserID pars.
Proof.
  intros Hu. unfold pg.Get. destruct (negb _); [discriminate|].
  unfold bind, pgx.Pool_QueryRow.
  destruct (head _) as [r|] eqn:Hh; [|discriminate].
  apply head_filter_Some in Hh.
  unfold pg.Scan. destruct (pgx.user_id r) as [u|] eqn:Hru; [|discriminate].
  destruct (pgx.meta r); [|discriminate].
  intros H. injection H as <- _ _ _. cbn [DataItems.UserID].
  unfold pg.Get_conds in Hh. apply nonempty_true in Hu. rewrite Hu in Hh.
  unfold pgx.where_ in Hh. rewrite forallb_forall in Hh.
  assert (Hc : pgx.holds (pgx.EqUserID (GetPars.UserID pars)) r = true).
  { apply Hh. destruct (nonempty (GetPars.ID pars)),
      (nonempty (GetPars.Type_ pars)); cbn; auto. }
  cbn in Hc. rewrite Hru in Hc. apply String.eqb_eq. exact Hc.
Qed.

Lemma scan_rows_Forall (P : DataItems.t -> Prop) (rows : list pgx.Row) :
  (forall r it, In r rows -> pg.Scan6 r = inl it -> P it) ->
  forall acc result,
    Forall P acc -> pg.scan_rows rows acc = (result, None) -> Forall P result.
Proof.
  induction rows as [|r rows IH]; intros Hrows acc result Hacc.
  - simpl. intros H. injection H as <-. exact Hacc.
  - simpl. destruct (pg.Scan6 r) as [data|e] eqn:Hs; [|discriminate].
    apply IH.
    + intros x it Hx. apply Hrows. right. exact Hx.
    + apply Forall_app. split; [exact Hacc|]. constructor; [|constructor].
      apply (Hrows r data); [left; reflexivity | exact Hs].
Qed.

Lemma In_opt_cond {A} (o : option A) (f : A -> pgx.Cond) (c : pgx.Cond)
    (queryBuilder : list pgx.Cond) :
  In c queryBuilder -> In c (pg.opt_cond o f queryBuilder).
Proof.
  destruct o; simpl; [|auto]. intros H. apply in_or_app. left. exact H.
Qed.

Lemma pg_List_respects_owner (pars : ListPars.t) (db db' : pgx.DB)
    (items : list DataItems.t) (n : Z) (u : string) :
  ListPars.UserID pars = Some u ->
  pg.List pars db = Done (items, n, None) db' ->
  Forall (fun it => DataItems.UserID it = u) items.
Proof.
  intros Hu. unfold pg.List, bind, pgx.Pool_Query.
  destruct (pg.scan_rows _ []) as [result [e|]] eqn:Hs; [discriminate|].
  intros H. injection H as <- _ _.
  refine (scan_rows_Forall _ _ _ [] result (List.Forall_nil _) Hs).
  intros r it Hr Hscan. apply list_elem_of_In, list_elem_of_filter in Hr.
  destruct Hr as [Hr _]. apply Is_true_true in Hr.
  unfold pgx.where_ in Hr. rewrite forallb_forall in Hr.
  assert (Hc : pgx.holds (pgx.EqUserID u) r = true).
  { apply Hr. unfold pg.List_conds. rewrite Hu.
    do 6 apply In_opt_cond. cbn [pg.opt_cond]. apply in_or_app. right.
    left. reflexivity. }
  cbn in Hc. unfold pg.Scan6 in Hscan.
  destruct (pgx.user_id r) as [v|]; [|discriminate].
  injection Hscan as <-. cbn. apply String.eqb_eq. exact Hc.
Qed.

(** ** Where the specification says more than the code does *)

(** C3 as stated fails. A bank-card item is created without meta, as the
    tests of the service do: [Create] succeeds, the meta column holds NULL,
    and [Get] by the id of the item returns an error and found = false. *)
Example Create_then_Get_without_meta :
  exists w1,
    Edit.Type_ standin.card_c1 = Some BankCardDataType
    /\ BankCardDataType <> BinaryDataType
    /\ service.Create (repoDB := pg.Repo) (repoS3 := standin.S3)
         standin.card_c1 standin.w0 = Done None w1
    /\ service.Get (repoDB := pg.Repo) (repoS3 := standin.S3)
         (GetPars.ofID "c1") w1
       = Done (None, false,
               Some (Wrapf "get data from PostgreSQL - "
                       (Err "cannot scan NULL into *string"))) w1.
Proof.
  eexists. split; [reflexivity|]. split; [discriminate|].
  split; vm_compute; reflexivity.
Qed.

(** C7 as stated fails. A filter with only meta set has none of id, owner id
    and type set, yet it passes [IsValid]: [Get] returns the first row of the
    table, and [Update] rewrites every row. *)
Example filter_with_meta_only_passes_gate :
  let pars := GetPars.mk "" "" "" "anything" "" in
  GetPars.ID pars = "" /\ GetPars.UserID pars = "" /\ GetPars.Type_ pars = ""
  /\ pg.Get pars standin.db_a1
     = Done (Some (DataItems.mk "a1" "1" TextDataType standin.hello "note" ""
                     100 100), true, None) standin.db_a1
  /\ pg.Update pars (Edit.withURL Edit.zero "x") standin.db_a1
     = Done None
         (pgx.mkDB
            [pgx.mkRow "a1" (Some "1") TextDataType standin.hello
                       (Some "note") "x" 100 100]
            (pgx.users standin.db0) 500 ∅ 1).
Proof. repeat split; vm_compute; reflexivity. Qed.


(** C8 as stated fails. The row was last updated at time 100 and the server
    clock reads 500; an [Update] that sets the meta succeeds and changes the
    meta, and [updated_at] is still 100. *)
Example Update_of_meta_keeps_updated_at :
  pgx.now standin.db_a1 = 500
  /\ pg.Update (GetPars.ofID "a1")
       (Edit.mk "a1" None None None (Some "changed") None None None)
       standin.db_a1
     = Done None
         (pgx.mkDB
            [pgx.mkRow "a1" (Some "1") TextDataType standin.hello
                       (Some "changed") "" 100 100]
            (pgx.users standin.db0) 500 ∅ 1).
Proof. split; vm_compute; reflexivity. Qed.

(** C10 as stated fails. The 'token' metadata holds an entry of three bytes
    after an entry that starts with "Bearer ": the loop stops at the first
    entry, and [GetUserIDFromContext] returns the user id. *)
Example short_entry_after_bearer_is_not_read :
  let md : auth.MD := {[ "token" := ["Bearer secret.2"; "abc"] ]} in
  md !! "token" = Some ["Bearer secret.2"; "abc"]
  /\ (String.length "abc" < 7)%nat
  /\ auth.GetUserIDFromContext (ext := standin.ext) standin.auth0 (Some md) tt
     = Done ("2", None) tt.
Proof.
  split; [reflexivity|]. split; [cbn; lia|]. vm_compute. reflexivity.
Qed.

(** ** The theorems at concrete inputs *)

(** [Create_then_Get_non_binary] for the text item "a1" with payload
    "hello" on the empty database. *)
Lemma Create_then_Get_non_binary_witness :
  exists w1,
    service.Create (repoDB := pg.Repo) (repoS3 := standin.S3)
      standin.text_a1 standin.w0 = Done None w1
    /\ snd w1 = standin.bucket0
    /\ service.Get (repoDB := pg.Repo) (repoS3 := standin.S3)
         (GetPars.ofID "a1") w1
       = Done (Some (DataItems.mk "a1" "1" TextDataType standin.hello "note" ""
                       100 100), true, None) w1.
Proof.
  eexists. split; [vm_compute; reflexivity|].
  apply (Create_then_Get_non_binary (repoS3 := standin.S3)
           standin.text_a1 TextDataType "1" "note" standin.hello
           standin.db0 standin.bucket0);
    [reflexivity | discriminate | reflexivity | reflexivity | reflexivity
    | discriminate | vm_compute; reflexivity].
Defined.

(** [empty_filter_InvalidInput] for the filter with no field set, on the
    database that holds "a1". *)
Lemma empty_filter_InvalidInput_witness :
  pg.Get (GetPars.ofID "") standin.db_a1
  = Done (None, false, Some errs.InvalidInput) standin.db_a1
  /\ pg.Update (GetPars.ofID "") (Edit.withURL Edit.zero "x") standin.db_a1
     = Done (Some errs.InvalidInput) standin.db_a1
  /\ pg.Delete (GetPars.ofID "") standin.db_a1
     = Done (Some errs.InvalidInput) standin.db_a1
  /\ service.Get (repoDB := pg.Repo) (repoS3 := standin.S3)
       (GetPars.ofID "") standin.w_a1
     = Done (None, false,
             Some (Wrapf "get data from PostgreSQL - " errs.InvalidInput))
            standin.w_a1
  /\ service.Update (repoDB := pg.Repo) (repoS3 := standin.S3)
       (GetPars.ofID "") (Edit.withURL Edit.zero "x") standin.w_a1
     = Done (Some (Wrapf "get data from PostgreSQL - " errs.InvalidInput))
            standin.w_a1
  /\ service.Delete (repoDB := pg.Repo) (repoS3 := standin.S3)
       (GetPars.ofID "") standin.w_a1
     = Done (Some (Wrapf "get data from PostgreSQL - " errs.InvalidInput))
            standin.w_a1.
Proof.
  apply (empty_filter_InvalidInput (repoS3 := standin.S3) (GetPars.ofID "")
           (Edit.withURL Edit.zero "x") standin.db_a1 standin.bucket0);
    reflexivity.
Defined.


(** [Update_leaves_unset_fields] for an update of the meta of "a1": every
    other field of the row, [updated_at] included, is as before. *)
Lemma Update_leaves_unset_fields_witness :
  exists r',
    [pgx.mkRow "a1" (Some "1") TextDataType standin.hello (Some "changed")
               "" 100 100] !! 0%nat = Some r'
    /\ pgx.id r' = "a1"
    /\ pgx.created_at r' = 100
    /\ pgx.user_id r' = Some "1"
    /\ pgx.type_ r' = TextDataType
    /\ pgx.data r' = standin.hello
    /\ pgx.url r' = ""
    /\ pgx.updated_at r' = 100.
Proof.
  assert (HU : pg.Update (GetPars.ofID "a1")
                 (Edit.mk "a1" None None None (Some "changed") None None None)
                 standin.db_a1
               = Done None
                   (pgx.mkDB
                      [pgx.mkRow "a1" (Some "1") TextDataType standin.hello
                                 (Some "changed") "" 100 100]
                      (pgx.users standin.db0) 500 ∅ 1))
    by (vm_compute; reflexivity).
  destruct (Update_leaves_unset_fields _ _ _ _ _ 0%nat standin.row_a1 HU
              eq_refl)
    as (r' & H0 & Hid & Hc & Hu & Ht & Hd & _ & Hurl & Hup).
  exists r'. repeat split; auto.
Defined.

(** [Create_compensates_failed_url_update] for the binary item "b2" created
    without meta: the nested update fails to read the row back, the object
    is removed from the bucket again, and the row stays in the table. *)
Lemma Create_compensates_failed_url_update_witness :
  exists w',
    service.Create (repoDB := pg.Repo) (repoS3 := standin.S3)
      standin.binary_b2 standin.w0
    = Done (Some (Wrapf "delete file in MinIO - "
                    (Wrapf "get data from PostgreSQL - "
                       (Err "cannot scan NULL into *string")))) w'
    /\ s3.objects (snd w') !! "uploads/b2" = None
    /\ map pgx.id (pgx.data_items (fst w')) = ["b2"].
Proof.
  eexists. split.
  - eapply (Create_compensates_failed_url_update
              (repoDB := pg.Repo) (repoS3 := standin.S3)
              standin.binary_b2 standin.deadbeef standin.w0);
      reflexivity.
  - split; vm_compute; reflexivity.
Defined.

(** The scenarios of the login flow: a wrong password, a right one, and the
    token read back by the guard. *)
Example Login_alice_wrong_password :
  users.Login (ext := standin.ext) standin.auth0 1000 "alice" "wrongpw"
    standin.db0
  = Done (None, Some errs.InvalidPassword) standin.db0.
Proof. vm_compute. reflexivity. Qed.

Example Login_alice :
  users.Login (ext := standin.ext) standin.auth0 1000 "alice" "pw1"
    standin.db0
  = Done (Some "secret.1", None) standin.db0.
Proof. vm_compute. reflexivity. Qed.

Example GetUserIDFromContext_alice :
  auth.GetUserIDFromContext (ext := standin.ext) standin.auth0
    (standin.ctx_of "1") tt
  = Done ("1", None) tt.
Proof. vm_compute. reflexivity. Qed.

(** * Further properties of the engine *)

(** ** Reads do not change the database *)

Lemma pg_Get_pure (pars : GetPars.t) (db db' : pgx.DB)
    (x : option DataItems.t * bool * option error) :
  pg.Get pars db = Done x db' -> db' = db.
Proof.
  unfold pg.Get. destruct (negb _); [intros H; injection H; auto|].
  unfold bind, pgx.Pool_QueryRow. destruct (head _) as [r|].
  - destruct (pg.Scan r); intros H; injection H; auto.
  - intros H; injection H; auto.
Qed.

Lemma pg_Get_outcome (pars : GetPars.t) (db : pgx.DB) :
  exists x, pg.Get pars db = Done x db.
Proof.
  unfold pg.Get. destruct (negb _); [eexists; reflexivity|].
  unfold bind, pgx.Pool_QueryRow. destruct (head _) as [r|].
  - destruct (pg.Scan r); eexists; reflexivity.
  - eexists; reflexivity.
Qed.

(** ** Get of a binary item *)

Section get_binary.
Context {D B : Type} {repoDB : RepoDBI D} {repoS3 : RepoS3 B}.

(** X1. [Get] of a binary item, over any two repositories: the object is asked
    for under the id of the row that was read; when the Object Store finds
    it, its bytes replace the payload of the record, and when it does not,
    the item is reported as not found, without an error. *)
Theorem Get_binary_takes_payload_from_object_store
    (pars : GetPars.t) (w : D * B) (obj : DataItems.t) (d1 : D)
    (file : list byte) (found : bool) (b1 : B) :
  RepoDBI_Get pars (fst w) = Done (Some obj, true, None) d1 ->
  DataItems.Type_ obj = BinaryDataType ->
  RepoS3_GetFile (GetPars.ofID (DataItems.ID obj)) (snd w)
  = Done (file, found, None) b1 ->
  service.Get pars w
  = Done (if found
          then (Some (DataItems.mk (DataItems.ID obj) (DataItems.UserID obj)
                        (DataItems.Type_ obj) file (DataItems.Meta obj)
                        (DataItems.URL obj) (DataItems.CreatedAt obj)
                        (DataItems.UpdatedAt obj)), true, None)
          else (None, false, None)) (d1, b1).
Proof.
  intros HG Hty HF. unfold service.Get, bind, onFst, onSnd.
  rewrite HG. cbn [negb fst snd]. rewrite Hty, String.eqb_refl.
  cbn [fst snd]. rewrite HF. destruct found; reflexivity.
Qed.

(** X2. [Update] of a binary item with a new payload, over any two
    repositories: the payload is uploaded first, under the id named in the
    filter; when the upload fails the metadata is not updated, and when it
    succeeds the partial is applied with the URL the upload returned. *)
Theorem Update_binary_uploads_before_metadata
    (pars : GetPars.t) (obj : Edit.t) (w : D * B) (existing : DataItems.t)
    (d1 : D) (data : list byte) (url : string) (uerr : option error)
    (b1 : B) :
  RepoDBI_Get pars (fst w) = Done (Some existing, true, None) d1 ->
  DataItems.Type_ existing = BinaryDataType ->
  Edit.Data obj = Some data ->
  RepoS3_UploadFile (GetPars.ID pars) data (snd w) = Done (url, uerr) b1 ->
  service.Update pars obj w
  = match uerr with
    | Some e => Done (Some (Wrapf "upload file to MinIO - " e)) (d1, b1)
    | None => onFst (RepoDBI_Update pars (Edit.withURL obj url)) (d1, b1)
    end.
Proof.
  intros HG Hty Hdata HU. unfold service.Update, bind, onSnd.
  unfold onFst at 1. rewrite HG. cbn [negb fst snd].
  rewrite Hty, String.eqb_refl, Hdata. cbn [fst snd]. rewrite HU.
  destruct uerr; reflexivity.
Qed.

(** X3. [Update] that carries no payload, or that addresses an item that is not
    binary, never calls the Object Store: it is the update of the
    repository. *)
Theorem Update_without_payload_is_metadata_only
    (pars : GetPars.t) (obj : Edit.t) (w : D * B) (existing : DataItems.t)
    (d1 : D) :
  RepoDBI_Get pars (fst w) = Done (Some existing, true, None) d1 ->
  DataItems.Type_ existing <> BinaryDataType \/ Edit.Data obj = None ->
  service.Update pars obj w = onFst (RepoDBI_Update pars obj) (d1, snd w).
Proof.
  intros HG Hcase. unfold service.Update, bind.
  unfold onFst at 1. rewrite HG. cbn [negb fst snd].
  destruct (String.eqb (DataItems.Type_ existing) BinaryDataType) eqn:Hty,
    (Edit.Data obj) as [data|] eqn:Hdata; try reflexivity.
  exfalso. destruct Hcase as [Hcase|Hcase]; [|discriminate].
  apply String.eqb_neq in Hcase. congruence.
Qed.

(** X4. [Delete] of a binary item, over any two repositories: the object is
    deleted first, and when that fails the row is not deleted. *)
Theorem Delete_stops_when_object_delete_fails
    (pars : GetPars.t) (w : D * B) (existing : DataItems.t) (d1 : D)
    (e : error) (b1 : B) :
  RepoDBI_Get pars (fst w) = Done (Some existing, true, None) d1 ->
  DataItems.Type_ existing = BinaryDataType ->
  RepoS3_DeleteFile (GetPars.ofID (DataItems.ID existing)) (snd w)
  = Done (Some e) b1 ->
  service.Delete pars w
  = Done (Some (Wrapf "delete file to MinIO - " e)) (d1, b1).
Proof.
  intros HG Hty HD. unfold service.Delete, bind, onSnd.
  unfold onFst at 1. rewrite HG. cbn [negb fst snd].
  rewrite Hty, String.eqb_refl. cbn [fst snd]. rewrite HD. reflexivity.
Qed.
End get_binary.

(** ** Delete on the PostgreSQL repository *)

Lemma where_EqID (i : string) (r : pgx.Row) :
  pgx.where_ [pgx.EqID i] r = String.eqb (pgx.id r) i.
Proof. cbn. apply andb_true_r. Qed.

Lemma pg_Delete_rows (pars : GetPars.t) (db db' : pgx.DB) (r : pgx.Row) :
  pg.Delete pars db = Done None db' ->
  (r ∈ pgx.data_items db'
   <-> r ∈ pgx.data_items db /\ pgx.id r <> GetPars.ID pars).
Proof.
  unfold pg.Delete. destruct (negb _); [discriminate|].
  cbv zeta. cbn [pgx.ToSql]. unfold pgx.Pool_Exec. cbn [pgx.run].
  intros H. injection H as <-. cbn [pgx.with_data_items pgx.data_items].
  rewrite list_elem_of_filter, andb_true_r.
  destruct (String.eqb_spec (pgx.id r) (GetPars.ID pars)) as [He|He];
    cbn; tauto.
Qed.

(** X5. [Delete] of the repository removes the rows whose id is the id of the
    filter and keeps every other row; owner and type named in the filter
    play no part, and the accounts are not touched. *)
Theorem pg_Delete_removes_rows_by_id_only (pars : GetPars.t)
    (db db' : pgx.DB) :
  pg.Delete pars db = Done None db' ->
  (forall r, r ∈ pgx.data_items db'
             <-> r ∈ pgx.data_items db /\ pgx.id r <> GetPars.ID pars)
  /\ pgx.users db' = pgx.users db.
Proof.
  intros H. split; [intros r; exact (pg_Delete_rows pars db db' r H)|].
  revert H. unfold pg.Delete. destruct (negb _); [discriminate|].
  cbv zeta. cbn [pgx.ToSql]. unfold pgx.Pool_Exec. cbn [pgx.run].
  intros H. injection H as <-. reflexivity.
Qed.

Section delete.
Context {B : Type} {repoS3 : RepoS3 B}.
#[local] Existing Instance pg.Repo.

Lemma service_Delete_success (pars : GetPars.t) (db : pgx.DB) (b : B)
    (w' : pgx.DB * B) :
  service.Delete pars (db, b) = Done None w' ->
  pg.Delete pars db = Done None (fst w').
Proof.
  unfold service.Delete, bind. unfold onFst at 1.
  cbn [RepoDBI_Get pg.Repo fst snd].
  destruct (pg_Get_outcome pars db) as [[[obj found] err] HG]. rewrite HG.
  destruct err; [discriminate|]. destruct found; [|discriminate].
  cbn [negb]. destruct obj as [obj|]; [|discriminate].
  destruct (String.eqb _ _).
  - unfold onSnd. cbn [fst snd].
    destruct (RepoS3_DeleteFile _ b) as [[e|] b1| |]; try discriminate.
    unfold onFst. cbn [RepoDBI_Delete pg.Repo fst snd].
    destruct (pg.Delete pars db) as [x d| |]; try discriminate.
    intros H. injection H as -> <-. reflexivity.
  - unfold ret, onFst. cbn [RepoDBI_Delete pg.Repo fst snd].
    destruct (pg.Delete pars db) as [x d| |]; try discriminate.
    intros H. injection H as -> <-. reflexivity.
Qed.

(** X6. After a [Delete] by a filter that names an id has succeeded, no row
    with that id is left, and [Get] by the same filter returns
    found = false without an error. *)
Theorem Delete_then_Get_not_found (pars : GetPars.t) (db : pgx.DB) (b : B)
    (w' : pgx.DB * B) :
  GetPars.ID pars <> "" ->
  service.Delete pars (db, b) = Done None w' ->
  Forall (fun r => pgx.id r <> GetPars.ID pars) (pgx.data_items (fst w'))
  /\ service.Get pars w' = Done (None, false, None) w'.
Proof.
  intros Hid HD. apply service_Delete_success in HD.
  assert (Hrows : Forall (fun r => pgx.id r <> GetPars.ID pars)
                         (pgx.data_items (fst w'))).
  { apply Forall_forall. intros r Hr.
    apply (pg_Delete_rows pars db (fst w') r HD) in Hr.
    tauto. }
  split; [exact Hrows|].
  assert (Hv : GetPars.IsValid pars = true).
  { unfold GetPars.IsValid. apply nonempty_true in Hid. rewrite Hid.
    reflexivity. }
  unfold service.Get, bind, onFst. cbn [RepoDBI_Get pg.Repo].
  rewrite (pg_Get_no_match pars (fst w') Hv).
  - destruct w'; reflexivity.
  - eapply Forall_impl; [exact Hrows|]. intros r Hr. cbn beta in Hr.
    unfold pg.Get_conds. apply nonempty_true in Hid. rewrite Hid.
    apply String.eqb_neq in Hr.
    destruct (nonempty (GetPars.UserID pars)),
      (nonempty (GetPars.Type_ pars)); cbn; rewrite Hr; reflexivity.
Qed.

(** X7. A [Delete] by a filter without an id (an owner alone, say) that finds a
    row reports success and deletes no row whose id is not empty: the
    repository deletes by the id of the filter, which is the empty
    string. *)
Theorem Delete_without_id_deletes_no_row (pars : GetPars.t) (db : pgx.DB)
    (b : B) (w' : pgx.DB * B) :
  GetPars.ID pars = "" ->
  Forall (fun r => pgx.id r <> "") (pgx.data_items db) ->
  service.Delete pars (db, b) = Done None w' ->
  pgx.data_items (fst w') = pgx.data_items db.
Proof.
  intros Hid Hrows HD. apply service_Delete_success in HD.
  unfold pg.Delete in HD. destruct (negb _); [discriminate|].
  cbv zeta in HD. cbn [pgx.ToSql] in HD. unfold pgx.Pool_Exec in HD.
  cbn [pgx.run] in HD. injection HD as HD. rewrite <- HD.
  cbn [pgx.with_data_items pgx.data_items]. rewrite Hid. clear HD.
  induction (pgx.data_items db) as [|r tbl IH]; [reflexivity|].
  apply Forall_cons in Hrows as [Hr Hrows].
  rewrite filter_cons_True.
  - f_equal. apply IH. exact Hrows.
  - apply String.eqb_neq in Hr. rewrite Hr. exact I.
Qed.
End delete.

(** ** Create on the PostgreSQL repository *)

Section create.
Context {B : Type} {repoS3 : RepoS3 B}.
#[local] Existing Instance pg.Repo.

(** What [Create] of the engine does when the insert is refused. *)
Lemma Create_insert_refused (obj : Edit.t) (db : pgx.DB) (b : B) (e : error) :
  pgx.run (pgx.now db)
    (pgx.Insert (Edit.ID obj) (Edit.UserID obj) (Edit.Type_ obj)
       (Edit.Data obj) (Edit.Meta obj)) (pgx.data_items db)
  = (pgx.data_items db, Some e) ->
  service.Create obj (db, b)
  = Done (Some (Wrapf "create data in PostgreSQL - " e))
      (pgx.mkDB (pgx.data_items db) (pgx.users db) (pgx.now db)
         (delete (pgx.next_tx db) (<[pgx.next_tx db := []]> (pgx.pending db)))
         (S (pgx.next_tx db)), b).
Proof.
  intros Hrun.
  unfold service.Create, bind, defer, onFst, onSnd.
  cbn [RepoDBI_BeginTx RepoDBI_Create RepoDBI_HandleTxCompletion pg.Repo].
  unfold pg.BeginTx, bind, pgx.Pool_BeginTx. cbn [fst snd ret].
  unfold pg.Create. cbn [pgx.ToSql]. unfold pgx.Pool_Exec.
  cbn [pgx.data_items pgx.now]. rewrite Hrun. cbn [fst snd ret].
  unfold pg.HandleTxCompletion, bind, pgx.Tx_Rollback.
  cbn [pgx.with_data_items pgx.pending pgx.next_tx].
  rewrite lookup_insert_eq. reflexivity.
Qed.

(** X8. [Create] with an id that a row already has fails with the error of the
    insert: [data_items] is as it was, the Object Store is not called, also
    for a binary item, and the transaction is closed. *)
Theorem Create_with_existing_id_changes_nothing
    (obj : Edit.t) (db : pgx.DB) (b : B) (r : pgx.Row) :
  r ∈ pgx.data_items db -> pgx.id r = Edit.ID obj ->
  exists (e : error) (db' : pgx.DB),
    service.Create obj (db, b)
    = Done (Some (Wrapf "create data in PostgreSQL - " e)) (db', b)
    /\ pgx.data_items db' = pgx.data_items db
    /\ pgx.pending db' !! pgx.next_tx db = None.
Proof.
  intros Hr Hid.
  assert (Hex : existsb (fun x => String.eqb (pgx.id x) (Edit.ID obj))
                        (pgx.data_items db) = true).
  { apply existsb_exists. exists r. split.
    - apply list_elem_of_In. exact Hr.
    - rewrite Hid. apply String.eqb_refl. }
  assert (Hrun : exists e,
            pgx.run (pgx.now db)
              (pgx.Insert (Edit.ID obj) (Edit.UserID obj) (Edit.Type_ obj)
                 (Edit.Data obj) (Edit.Meta obj)) (pgx.data_items db)
            = (pgx.data_items db, Some e)).
  { cbn [pgx.run]. destruct (Edit.Type_ obj), (Edit.Data obj);
      try rewrite Hex; eexists; reflexivity. }
  destruct Hrun as [e Hrun]. exists e. eexists.
  split; [apply Create_insert_refused; exact Hrun|].
  split; [reflexivity|]. cbn [pgx.pending]. apply lookup_delete_eq.
Qed.

(** X9. [Create] without a type or without a payload does not panic on the nil
    pointer: the insert is refused first, [Create] returns its error, and
    [data_items] and the Object Store are as they were. *)
Theorem Create_without_type_or_payload_is_refused
    (obj : Edit.t) (db : pgx.DB) (b : B) :
  Edit.Type_ obj = None \/ Edit.Data obj = None ->
  exists db',
    service.Create obj (db, b)
    = Done (Some (Wrapf "create data in PostgreSQL - "
                    (Err "null value violates not-null constraint")))
           (db', b)
    /\ pgx.data_items db' = pgx.data_items db.
Proof.
  intros Hnil. eexists. split; [apply Create_insert_refused|reflexivity].
  cbn [pgx.run].
  destruct (Edit.Type_ obj), (Edit.Data obj); try reflexivity.
  destruct Hnil; discriminate.
Qed.

Lemma map_update_last (i : string) (f : pgx.Row -> pgx.Row)
    (tbl : list pgx.Row) (r : pgx.Row) :
  existsb (fun x => String.eqb (pgx.id x) i) tbl = false ->
  pgx.id r = i ->
  map (fun x => if pgx.where_ [pgx.EqID i] x then f x else x) (tbl ++ [r])
  = tbl ++ [f r].
Proof.
  intros Hfresh Hr. rewrite map_app. f_equal.
  - induction tbl as [|x tbl IH]; [reflexivity|].
    simpl in Hfresh. apply orb_false_iff in Hfresh as [Hx Hfresh].
    cbn [map]. rewrite where_EqID, Hx. f_equal. apply IH. exact Hfresh.
  - cbn [map]. rewrite where_EqID, Hr, String.eqb_refl. reflexivity.
Qed.

Lemma pg_Update_url (i url : string) (db : pgx.DB) :
  i <> "" ->
  pg.Update (GetPars.ofID i) (Edit.withURL Edit.zero url) db
  = Done None
      (pgx.with_data_items db
         (map (fun r =>
                 if pgx.where_ [pgx.EqID i] r
                 then pgx.assign r (pgx.SetURL url) else r)
              (pgx.data_items db))).
Proof.
  intros Hi. apply nonempty_true in Hi.
  unfold pg.Update, GetPars.IsValid, pg.Update_conds, GetPars.ofID.
  cbn [GetPars.ID GetPars.UserID]. rewrite Hi. reflexivity.
Qed.

(** What [Create] of the engine does for a binary item when the insert
    and the upload go through. *)
Lemma Create_binary_success
    (obj : Edit.t) (u m : string) (data : list byte) (db : pgx.DB)
    (b b1 : B) (url : string) :
  Edit.Type_ obj = Some BinaryDataType -> Edit.Data obj = Some data ->
  Edit.UserID obj = Some u -> Edit.Meta obj = Some m ->
  Edit.ID obj <> "" ->
  (forall r, r ∈ pgx.data_items db -> pgx.id r <> Edit.ID obj) ->
  RepoS3_UploadFile (Edit.ID obj) data b = Done (url, None) b1 ->
  service.Create obj (db, b)
  = Done None
      (pgx.mkDB
         (pgx.data_items db
          ++ [pgx.mkRow (Edit.ID obj) (Some u) BinaryDataType data (Some m)
                url (pgx.now db) (pgx.now db)])
         (pgx.users db) (pgx.now db)
         (delete (pgx.next_tx db) (<[pgx.next_tx db := []]> (pgx.pending db)))
         (S (pgx.next_tx db)), b1).
Proof.
  intros Hty Hdata Hu Hm Hid Hfresh Hup.
  pose proof (existsb_id_fresh _ _ Hfresh) as Hex.
  pose proof Hid as Hne. apply nonempty_true in Hne.
  unfold service.Create, bind, defer, onFst, onSnd.
  cbn [RepoDBI_BeginTx RepoDBI_Create RepoDBI_HandleTxCompletion pg.Repo].
  unfold pg.BeginTx, bind, pgx.Pool_BeginTx. cbn [fst snd ret].
  unfold pg.Create. cbn [pgx.ToSql]. unfold pgx.Pool_Exec.
  cbn [pgx.data_items pgx.now]. rewrite Hty, Hdata. cbn [pgx.run].
  rewrite Hex. cbn [fst snd]. rewrite String.eqb_refl. cbn [fst snd].
  rewrite Hup. cbn [fst snd].
  unfold service.Update, bind, onFst.
  cbn [RepoDBI_Get RepoDBI_Update pg.Repo fst snd].
  erewrite pg_Get_last; [|exact Hid| |exact Hex|reflexivity]; [|reflexivity].
  unfold pg.Scan. cbn [pgx.user_id pgx.meta]. rewrite Hu, Hm.
  cbn [negb DataItems.Type_ pgx.type_ Edit.Data Edit.withURL Edit.zero].
  rewrite String.eqb_refl.
  rewrite (pg_Update_url _ url _ Hid). cbn [fst snd ret].
  cbn [pgx.data_items pgx.with_data_items].
  erewrite map_update_last; [|exact Hex|reflexivity].
  cbn [pgx.assign pgx.id pgx.user_id pgx.type_ pgx.data pgx.meta
       pgx.url pgx.created_at pgx.updated_at].
  unfold pg.HandleTxCompletion, pgx.Tx_Commit.
  cbn [pgx.with_data_items pgx.pending pgx.next_tx pgx.data_items pgx.now
       pgx.users].
  rewrite lookup_insert_eq. cbn [pgx.run_all]. reflexivity.
Qed.


(** C5. [Create] of the engine sends the insert and the nested URL update
    on the connection pool, not on the transaction it has opened. First
    conjunct: in the calls [Create] makes for a binary item, [BeginTx], the
    insert and the [Update] that records the URL, the row is in [data_items]
    as soon as the insert returns and holds the URL as soon as the update
    returns, the transaction has received no statement, and the rollback of
    the completion helper on an error leaves the row and its URL where they
    are. Second conjunct: when the upload to the Object Store fails,
    [Create] returns the upload error, the completion helper rolls the
    transaction back, and the row is still in [data_items]. Third conjunct:
    when the upload succeeds, [Create] returns nil and the row holds the
    URL, so the nested update has run. The item is one the insert admits: a
    new, non-empty id, a payload, an owner that is an account, a meta; the
    URL fits its column. *)
Theorem Create_upload_failure_leaves_row
    (obj : Edit.t) (u m : string) (data : list byte) (db : pgx.DB) (b : B) :
  Edit.Type_ obj = Some BinaryDataType ->
  Edit.Data obj = Some data -> data <> [] ->
  Edit.UserID obj = Some u -> pgx.is_account (pgx.users db) u = true ->
  Edit.Meta obj = Some m ->
  Edit.ID obj <> "" ->
  (forall r, r ∈ pgx.data_items db -> pgx.id r <> Edit.ID obj) ->
  let h := pgx.next_tx db in
  let row := fun url =>
    pgx.mkRow (Edit.ID obj) (Some u) BinaryDataType data (Some m) url
              (pgx.now db) (pgx.now db) in
  (forall (url : string) (e : error),
     pgx.fits_url url = true ->
     exists db1 db2 db3 db4,
       pg.BeginTx db = Done (Some h, None) db1
       /\ pg.Create obj db1 = Done None db2
       /\ pgx.data_items db2 = pgx.data_items db ++ [row ""]
       /\ pgx.pending db2 !! h = Some []
       /\ service.Update (GetPars.ofID (Edit.ID obj))
            (Edit.withURL Edit.zero url) (db2, b) = Done None (db3, b)
       /\ pgx.data_items db3 = pgx.data_items db ++ [row url]
       /\ pgx.pending db3 !! h = Some []
       /\ pg.HandleTxCompletion (Some h) false (Some e) db3
          = Done (Some e) db4
       /\ pgx.data_items db4 = pgx.data_items db ++ [row url]
       /\ pgx.pending db4 !! h = None)
  /\ (forall (b' : B) (url : string) (e : error),
        RepoS3_UploadFile (Edit.ID obj) data b = Done (url, Some e) b' ->
        exists db',
          service.Create obj (db, b)
          = Done (Some (Wrapf "upload file to MinIO - " e)) (db', b')
          /\ pgx.data_items db' = pgx.data_items db ++ [row ""]
          /\ pgx.pending db' !! h = None)
  /\ (forall (b1 : B) (url : string),
        RepoS3_UploadFile (Edit.ID obj) data b = Done (url, None) b1 ->
        pgx.fits_url url = true ->
        exists db',
          service.Create obj (db, b) = Done None (db', b1)
          /\ pgx.data_items db' = pgx.data_items db ++ [row url]
          /\ pgx.pending db' !! h = None).
Proof.
  intros Hty Hdata _ Hu _ Hm Hid Hfresh h row.
  pose proof (existsb_id_fresh _ _ Hfresh) as Hex.
  split; [|split].
  - intros url e _.
    eexists. eexists. eexists. eexists.
    split; [reflexivity|].
    split.
    { unfold pg.Create. cbn [pgx.ToSql]. unfold pgx.Pool_Exec.
      cbn [pgx.data_items pgx.now]. rewrite Hty, Hdata, Hu, Hm.
      cbn [pgx.run]. rewrite Hex. reflexivity. }
    split; [reflexivity|].
    split; [cbn [pgx.with_data_items pgx.pending]; apply lookup_insert_eq|].
    split.
    { unfold service.Update, bind, onFst.
      cbn [RepoDBI_Get RepoDBI_Update pg.Repo fst snd].
      erewrite pg_Get_last; [|exact Hid| |exact Hex|reflexivity];
        [|reflexivity].
      unfold pg.Scan. cbn [pgx.user_id pgx.meta].
      cbn [negb DataItems.Type_ pgx.type_ Edit.Data Edit.withURL Edit.zero].
      rewrite String.eqb_refl.
      rewrite (pg_Update_url _ url _ Hid). cbn [fst snd ret].
      cbn [pgx.data_items pgx.with_data_items].
      erewrite map_update_last; [|exact Hex|reflexivity].
      reflexivity. }
    split; [reflexivity|].
    split; [cbn [pgx.with_data_items pgx.pending]; apply lookup_insert_eq|].
    split.
    { unfold pg.HandleTxCompletion, bind, pgx.Tx_Rollback.
      cbn [pgx.with_data_items pgx.pending].
      rewrite lookup_insert_eq. reflexivity. }
    split; [reflexivity|].
    cbn [pgx.with_pending pgx.pending]. apply lookup_delete_eq.
  - intros b' url e Hup.
    eexists. split; [|split].
    + unfold service.Create, bind, defer, onFst, onSnd.
      cbn [RepoDBI_BeginTx RepoDBI_Create RepoDBI_HandleTxCompletion pg.Repo].
      unfold pg.BeginTx, bind, pgx.Pool_BeginTx. cbn [fst snd ret].
      unfold pg.Create. cbn [pgx.ToSql]. unfold pgx.Pool_Exec.
      cbn [pgx.data_items pgx.now]. rewrite Hty, Hdata, Hu, Hm.
      cbn [pgx.run]. rewrite Hex. cbn [fst snd].
      rewrite String.eqb_refl. cbn [fst snd]. rewrite Hup.
      cbn [fst snd ret].
      unfold pg.HandleTxCompletion, bind, pgx.Tx_Rollback.
      cbn [pgx.with_data_items pgx.pending pgx.next_tx].
      rewrite lookup_insert_eq. cbn [ret]. reflexivity.
    + reflexivity.
    + cbn [pgx.with_pending pgx.pending]. apply lookup_delete_eq.
  - intros b1 url Hup _.
    eexists. split; [|split].
    + exact (Create_binary_success obj u m data db b b1 url
               Hty Hdata Hu Hm Hid Hfresh Hup).
    + reflexivity.
    + cbn [pgx.pending]. apply lookup_delete_eq.
Qed.
End create.

(** [Create_upload_failure_leaves_row] for the binary item "7" of alice:
    the calls of [Create] followed by the rollback of the completion
    helper, [Create] itself on a bucket that cannot be reached, and
    [Create] on a bucket that can. *)
Lemma Create_upload_failure_leaves_row_witness :
  (exists db1 db2 db3 db4,
     pg.BeginTx standin.db0 = Done (Some 0%nat, None) db1
     /\ pg.Create standin.binary_7 db1 = Done None db2
     /\ pgx.data_items db2
        = [pgx.mkRow "7" (Some "1") BinaryDataType standin.deadbeef
                     (Some "blob") "" 100 100]
     /\ pgx.pending db2 !! 0%nat = Some []
     /\ service.Update (repoDB := pg.Repo) (repoS3 := standin.S3)
          (GetPars.ofID "7")
          (Edit.withURL Edit.zero "http://localhost:9000/mybucket/uploads/7")
          (db2, standin.bucket_down)
        = Done None (db3, standin.bucket_down)
     /\ pgx.data_items db3
        = [pgx.mkRow "7" (Some "1") BinaryDataType standin.deadbeef
                     (Some "blob") "http://localhost:9000/mybucket/uploads/7"
                     100 100]
     /\ pgx.pending db3 !! 0%nat = Some []
     /\ pg.HandleTxCompletion (Some 0%nat) false
          (Some (Err "connection refused")) db3
        = Done (Some (Err "connection refused")) db4
     /\ pgx.data_items db4
        = [pgx.mkRow "7" (Some "1") BinaryDataType standin.deadbeef
                     (Some "blob") "http://localhost:9000/mybucket/uploads/7"
                     100 100]
     /\ pgx.pending db4 !! 0%nat = None)
  /\ (exists db',
       service.Create (repoDB := pg.Repo) (repoS3 := standin.S3)
         standin.binary_7 (standin.db0, standin.bucket_down)
       = Done (Some (Wrapf "upload file to MinIO - "
                       (Err "failed to upload file to MinIO: connection refused")))
              (db', standin.bucket_down)
       /\ pgx.data_items db'
          = [pgx.mkRow "7" (Some "1") BinaryDataType standin.deadbeef
                       (Some "blob") "" 100 100]
       /\ pgx.pending db' !! 0%nat = None)
  /\ exists db',
       service.Create (repoDB := pg.Repo) (repoS3 := standin.S3)
         standin.binary_7 (standin.db0, standin.bucket0)
       = Done None (db', sample.bucket_7)
       /\ pgx.data_items db'
          = [pgx.mkRow "7" (Some "1") BinaryDataType standin.deadbeef
                       (Some "blob") "http://localhost:9000/mybucket/uploads/7"
                       100 100]
       /\ pgx.pending db' !! 0%nat = None.
Proof.
  assert (Hfresh : forall r, r ∈ pgx.data_items standin.db0 ->
                             pgx.id r <> Edit.ID standin.binary_7)
    by (intros r Hr; inversion Hr).
  assert (Hacc : pgx.is_account (pgx.users standin.db0) "1" = true)
    by (vm_compute; reflexivity).
  assert (Hid : Edit.ID standin.binary_7 <> "") by (cbn; discriminate).
  assert (Hdata : standin.deadbeef <> []) by discriminate.
  destruct (Create_upload_failure_leaves_row (repoS3 := standin.S3)
              standin.binary_7 "1" "blob" standin.deadbeef standin.db0
              standin.bucket_down eq_refl eq_refl Hdata eq_refl Hacc eq_refl
              Hid Hfresh) as (Hcalls & Hfails & _).
  destruct (Create_upload_failure_leaves_row (repoS3 := standin.S3)
              standin.binary_7 "1" "blob" standin.deadbeef standin.db0
              standin.bucket0 eq_refl eq_refl Hdata eq_refl Hacc eq_refl
              Hid Hfresh) as (_ & _ & Hgoes).
  split; [|split].
  - apply (Hcalls "http://localhost:9000/mybucket/uploads/7"
             (Err "connection refused")).
    vm_compute; reflexivity.
  - apply (Hfails standin.bucket_down "").
    vm_compute; reflexivity.
  - apply (Hgoes sample.bucket_7 "http://localhost:9000/mybucket/uploads/7");
      vm_compute; reflexivity.
Defined.

(** ** The primary key *)

Lemma assign_id (r : pgx.Row) (s : pgx.SetClause) :
  pgx.id (pgx.assign r s) = pgx.id r.
Proof. destruct s; reflexivity. Qed.

Lemma fold_assign_id (sets : list pgx.SetClause) (r : pgx.Row) :
  pgx.id (fold_left pgx.assign sets r) = pgx.id r.
Proof.
  revert r. induction sets as [|s sets IH]; intros r; [reflexivity|].
  simpl. rewrite IH. apply assign_id.
Qed.

Lemma existsb_id_not_in (i : string) (tbl : list pgx.Row) :
  existsb (fun r => String.eqb (pgx.id r) i) tbl = false ->
  i ∉ map pgx.id tbl.
Proof.
  induction tbl as [|x tbl IH]; simpl; intros H.
  - intros Hin. inversion Hin.
  - apply orb_false_iff in H as [Hx H]. apply String.eqb_neq in Hx.
    intros Hin. apply elem_of_cons in Hin as [->|Hin]; [congruence|].
    exact (IH H Hin).
Qed.

Lemma NoDup_map_filter {A K} (key : A -> K) (f : A -> bool) (l : list A) :
  NoDup (map key l) -> NoDup (map key (filter f l)).
Proof.
  induction l as [|x l IH]; simpl; intros H; [constructor|].
  apply NoDup_cons in H as [Hx H]. rewrite filter_cons.
  destruct (decide (f x)); [|auto]. simpl. apply NoDup_cons. split; [|auto].
  intros Hin. apply Hx.
  apply list_elem_of_In, in_map_iff in Hin as (y & Hy & Hin).
  apply list_elem_of_In, list_elem_of_filter in Hin as [_ Hin].
  apply list_elem_of_In, in_map_iff. exists y. split; [exact Hy|].
  apply list_elem_of_In. exact Hin.
Qed.

(** No statement breaks the primary key: when the ids of the rows of
    [data_items] are pairwise different before an INSERT, UPDATE or DELETE,
    they are so afterwards, whether the statement succeeds or fails. *)
Theorem run_keeps_ids_unique (now : Z) (s : pgx.Stmt)
    (tbl tbl' : list pgx.Row) (err : option error) :
  NoDup (map pgx.id tbl) ->
  pgx.run now s tbl = (tbl', err) ->
  NoDup (map pgx.id tbl').
Proof.
  intros Hnd. destruct s as [i u t d m|sets conds|conds]; cbn [pgx.run].
  - destruct t as [t|], d as [d|];
      try (intros H; injection H as <- _; exact Hnd).
    destruct (existsb _ tbl) eqn:Hex; intros H; injection H as <- _;
      [exact Hnd|].
    rewrite map_app. apply NoDup_app. split; [exact Hnd|]. split.
    + intros x Hx Hin. cbn in Hin. apply list_elem_of_singleton in Hin.
      subst x. exact (existsb_id_not_in _ _ Hex Hx).
    + cbn. apply NoDup_singleton.
  - intros H. injection H as <- _. rewrite map_map.
    erewrite map_ext; [exact Hnd|]. intros r. cbn beta.
    destruct (pgx.where_ conds r); [apply fold_assign_id | reflexivity].
  - intros H. injection H as <- _. apply NoDup_map_filter. exact Hnd.
Qed.

(** X11. [Create], [Update] and [Delete] of the repository keep the ids of
    [data_items] pairwise different. *)
Theorem repository_keeps_ids_unique (db : pgx.DB) :
  NoDup (map pgx.id (pgx.data_items db)) ->
  (forall obj err db',
     pg.Create obj db = Done err db' ->
     NoDup (map pgx.id (pgx.data_items db')))
  /\ (forall pars obj err db',
        pg.Update pars obj db = Done err db' ->
        NoDup (map pgx.id (pgx.data_items db')))
  /\ (forall pars err db',
        pg.Delete pars db = Done err db' ->
        NoDup (map pgx.id (pgx.data_items db'))).
Proof.
  intros Hnd.
  assert (Hexec : forall s err db',
            pgx.Pool_Exec s db = Done err db' ->
            NoDup (map pgx.id (pgx.data_items db'))).
  { intros s err db'. unfold pgx.Pool_Exec.
    destruct (pgx.run _ s _) as [tbl e] eqn:Hrun.
    intros H. injection H as _ <-. cbn [pgx.with_data_items pgx.data_items].
    exact (run_keeps_ids_unique _ _ _ _ _ Hnd Hrun). }
  split; [|split].
  - intros obj err db'. unfold pg.Create. cbn [pgx.ToSql]. apply Hexec.
  - intros pars obj err db'. unfold pg.Update.
    destruct (negb _); [intros H; injection H as _ <-; exact Hnd|].
    cbv zeta. destruct (pgx.ToSql _);
      [intros H; injection H as _ <-; exact Hnd | apply Hexec].
  - intros pars err db'. unfold pg.Delete.
    destruct (negb _); [intros H; injection H as _ <-; exact Hnd|].
    cbv zeta. cbn [pgx.ToSql]. apply Hexec.
Qed.

(** ** Transactions *)

(** X12. The completion helper never leaves the transaction open: whether it
    runs after a panic, after an error or after success, the handle of an
    open transaction is closed afterwards. After a panic it rolls back and
    panics again; after an error it rolls back and leaves the error as it
    is. In both cases [data_items] is as it was. *)
Theorem HandleTxCompletion_closes_transaction (h : nat) (db : pgx.DB)
    (recovered : bool) (err : option error) (ss : list pgx.Stmt) :
  pgx.pending db !! h = Some ss ->
  match pg.HandleTxCompletion (Some h) recovered err db with
  | Done err' db' =>
      recovered = false /\ pgx.pending db' !! h = None
      /\ (forall e, err = Some e ->
          err' = Some e /\ pgx.data_items db' = pgx.data_items db)
  | Panic db' =>
      recovered = true /\ pgx.pending db' !! h = None
      /\ pgx.data_items db' = pgx.data_items db
  | Exit _ => False
  end.
Proof.
  intros Hopen. unfold pg.HandleTxCompletion.
  destruct recovered.
  - unfold bind, pgx.Tx_Rollback, panic. rewrite Hopen.
    cbn [pgx.with_pending pgx.pending pgx.data_items].
    rewrite lookup_delete_eq. auto.
  - destruct err as [e|].
    + unfold bind, pgx.Tx_Rollback, ret. rewrite Hopen.
      cbn [pgx.with_pending pgx.pending pgx.data_items].
      rewrite lookup_delete_eq. repeat split; auto.
      all: intros e' He'; injection He' as <-; auto.
    + unfold pgx.Tx_Commit. rewrite Hopen.
      destruct (pgx.run_all _ _ _) as [tbl [e|]];
        cbn [pgx.with_pending pgx.pending]; rewrite lookup_delete_eq;
        repeat split; auto; discriminate.
Qed.

(** X13. Rolling back twice is harmless, committing after a rollback is not: on
    the transaction [BeginTx] has just opened, [RollbackTx] returns nil both
    the first and the second time (the driver's "tx is closed" is
    swallowed), while [CommitTx] after the rollback returns that error. None
    of these calls changes [data_items]. *)
Theorem RollbackTx_twice_then_CommitTx (db : pgx.DB) :
  exists tx db1 db2,
    pg.BeginTx db = Done (tx, None) db1
    /\ pg.RollbackTx tx db1 = Done None db2
    /\ pg.RollbackTx tx db2 = Done None db2
    /\ pg.CommitTx tx db2 = Done (Some pgx.ErrTxClosed) db2
    /\ pgx.data_items db2 = pgx.data_items db.
Proof.
  eexists. eexists. eexists.
  split; [reflexivity|].
  assert (H1 : pgx.pending
                 (pgx.mkDB (pgx.data_items db) (pgx.users db) (pgx.now db)
                    (<[pgx.next_tx db := []]> (pgx.pending db))
                    (S (pgx.next_tx db))) !! pgx.next_tx db = Some [])
    by (cbn [pgx.pending]; apply lookup_insert_eq).
  split.
  { unfold pg.RollbackTx, bind, pgx.Tx_Rollback. rewrite H1. reflexivity. }
  assert (H2 : pgx.pending
                 (pgx.with_pending
                    (pgx.mkDB (pgx.data_items db) (pgx.users db) (pgx.now db)
                       (<[pgx.next_tx db := []]> (pgx.pending db))
                       (S (pgx.next_tx db)))
                    (delete (pgx.next_tx db)
                       (<[pgx.next_tx db := []]> (pgx.pending db))))
               !! pgx.next_tx db = None)
    by (cbn [pgx.pending pgx.with_pending]; apply lookup_delete_eq).
  split; [|split; [|reflexivity]].
  - unfold pg.RollbackTx, bind, pgx.Tx_Rollback.
    cbn [pgx.pending pgx.with_pending] in *. rewrite H2. cbn [ret].
    rewrite bool_decide_eq_true_2 by reflexivity. reflexivity.
  - unfold pg.CommitTx, bind, pgx.Tx_Commit.
    cbn [pgx.pending pgx.with_pending] in *. rewrite H2. reflexivity.
Qed.

(** ** Update and List on the PostgreSQL repository *)

(** X14. [Update] with a filter that [IsValid] accepts and that has neither
    an id nor an owner (a type, a meta or a url alone) has no WHERE clause:
    the partial is applied to every row of the table. *)
Theorem pg_Update_without_id_and_owner_rewrites_every_row
    (pars : GetPars.t) (obj : Edit.t) (db : pgx.DB) :
  GetPars.IsValid pars = true ->
  GetPars.ID pars = "" -> GetPars.UserID pars = "" ->
  pg.Update_sets obj <> [] ->
  pg.Update pars obj db
  = Done None
      (pgx.with_data_items db
         (map (fold_left pgx.assign (pg.Update_sets obj))
              (pgx.data_items db))).
Proof.
  intros Hv Hid Hu Hsets. unfold pg.Update. rewrite Hv. cbn [negb].
  cbv zeta. unfold pg.Update_conds. rewrite Hid, Hu.
  cbn [nonempty String.eqb negb].
  destruct (pg.Update_sets obj) as [|s sets] eqn:Hs; [congruence|].
  cbn [pgx.ToSql]. unfold pgx.Pool_Exec. cbn [pgx.run]. reflexivity.
Qed.

(** X15. [Update] with a partial that sets no column fails before any statement
    is sent (the query builder refuses an UPDATE without a SET clause), and
    the database is as it was. [CreatedAt] and [ID] of the partial are not
    columns the update can set. *)
Theorem pg_Update_with_empty_partial_fails (pars : GetPars.t) (obj : Edit.t)
    (db : pgx.DB) :
  GetPars.IsValid pars = true ->
  Edit.UserID obj = None -> Edit.Type_ obj = None -> Edit.Data obj = None ->
  Edit.Meta obj = None -> Edit.UpdatedAt obj = None -> Edit.URL obj = None ->
  pg.Update pars obj db
  = Done (Some (Err "update statements must have at least one Set clause"))
         db.
Proof.
  intros Hv H1 H2 H3 H4 H5 H6. unfold pg.Update. rewrite Hv. cbn [negb].
  cbv zeta. unfold pg.Update_sets. rewrite H1, H2, H3, H4, H5, H6.
  reflexivity.
Qed.

Lemma scan_rows_length (rows : list pgx.Row) :
  forall acc result,
    pg.scan_rows rows acc = (result, None) ->
    length result = (length acc + length rows)%nat.
Proof.
  induction rows as [|r rows IH]; intros acc result; simpl.
  - intros H. injection H as <-. lia.
  - destruct (pg.Scan6 r) as [data|e]; [|discriminate].
    intros H. apply IH in H. rewrite H, length_app. simpl. lia.
Qed.

(** X16. [List] reads six columns only: every record it returns has an empty
    meta and an empty url, whatever the rows hold. The count it returns is
    the number of records, and the database is as it was. *)
Theorem pg_List_returns_no_meta_and_no_url (pars : ListPars.t)
    (db db' : pgx.DB) (items : list DataItems.t) (n : Z) :
  pg.List pars db = Done (items, n, None) db' ->
  db' = db
  /\ n = Z.of_nat (length items)
  /\ Forall (fun it => DataItems.Meta it = "" /\ DataItems.URL it = "") items.
Proof.
  unfold pg.List, bind, pgx.Pool_Query.
  destruct (pg.scan_rows _ []) as [result [e|]] eqn:Hs; [discriminate|].
  intros H. injection H as <- <- <-. repeat split.
  refine (scan_rows_Forall _ _ _ [] result (List.Forall_nil _) Hs).
  intros r it _ Hscan. unfold pg.Scan6 in Hscan.
  destruct (pgx.user_id r); [|discriminate].
  injection Hscan as <-. split; reflexivity.
Qed.

(** X17. [List] fails as a whole when one of the rows it selects has no owner:
    the NULL cannot be scanned, and no record is returned. *)
Theorem pg_List_fails_on_row_without_owner (pars : ListPars.t) (db : pgx.DB)
    (r : pgx.Row) :
  r ∈ pgx.data_items db ->
  pgx.where_ (pg.List_conds pars) r = true ->
  pgx.user_id r = None ->
  pg.List pars db = Done ([], 0, Some (Err "cannot scan NULL into *string")) db.
Proof.
  intros Hr Hw Hnull. unfold pg.List, bind, pgx.Pool_Query.
  assert (Hin : r ∈ filter (fun x => pgx.where_ (pg.List_conds pars) x)
                        (pgx.data_items db)).
  { apply list_elem_of_filter. split; [rewrite Hw; exact I | exact Hr]. }
  assert (Hscan : forall rows acc,
            r ∈ rows ->
            pg.scan_rows rows acc
            = ([], Some (Err "cannot scan NULL into *string"))).
  { induction rows as [|x rows IH]; intros acc Hx; [inversion Hx|].
    simpl. unfold pg.Scan6 at 1.
    destruct (pgx.user_id x) as [u|] eqn:Hxu; [|reflexivity].
    apply elem_of_cons in Hx as [->|Hx]; [congruence|].
    apply IH. exact Hx. }
  rewrite (Hscan _ [] Hin). reflexivity.
Qed.

(** ** The guard: missing credentials and the token round trip *)

Lemma substring_all (s : string) : substring 0 (String.length s) s = s.
Proof. induction s as [|c s IH]; simpl; [reflexivity | rewrite IH; reflexivity]. Qed.

Lemma slice_Bearer (t : string) :
  auth.slice_to ("Bearer " +:+ t) 7 = Some "Bearer "
  /\ auth.slice_from ("Bearer " +:+ t) 7 = t.
Proof.
  split.
  - unfold auth.slice_to. cbn. destruct t; reflexivity.
  - unfold auth.slice_from. cbv [String.append]. simpl.
    rewrite Nat.sub_0_r. apply substring_all.
Qed.

Section guard_more.
Context {ext : Externals}.

Lemma find_bearer_skips {W} (before rest : list string) (w : W) :
  Forall (fun s => exists p, auth.slice_to s 7 = Some p /\ p <> "Bearer ")
         before ->
  auth.find_bearer (before ++ rest) w = auth.find_bearer rest w.
Proof.
  induction 1 as [|s before (p & Hs & Hp) _ IH]; [reflexivity|].
  simpl. rewrite Hs. apply String.eqb_neq in Hp. rewrite Hp. exact IH.
Qed.

(** X18. A request without a usable credential gets an error, never a panic and
    never a user id: when the context has no metadata, when the 'token' key
    is absent or has no entry, and when every entry has at least seven bytes
    and none starts with "Bearer ". *)
Theorem GetUserIDFromContext_without_credential {W} (a : auth.Auth) (w : W) :
  auth.GetUserIDFromContext a None w
  = Done ("", Some (Err "missing metadata in context")) w
  /\ (forall md : auth.MD,
        default [] (md !! "token") = [] ->
        auth.GetUserIDFromContext a (Some md) w
        = Done ("", Some (Err "missing cookies in metadata")) w)
  /\ (forall (md : auth.MD) (s : string) (rest : list string),
        md !! "token" = Some (s :: rest) ->
        Forall (fun s => exists p, auth.slice_to s 7 = Some p
                                   /\ p <> "Bearer ") (s :: rest) ->
        auth.GetUserIDFromContext a (Some md) w
        = Done ("", Some (Err "jwt cookie not found")) w).
Proof.
  split; [reflexivity|]. split.
  - intros md Hmd. unfold auth.GetUserIDFromContext. simpl. rewrite Hmd.
    reflexivity.
  - intros md s rest Hmd Hall.
    unfold auth.GetUserIDFromContext, auth.metadata_FromIncomingContext.
    rewrite Hmd. change (default [] (Some (s :: rest))) with (s :: rest).
    cbn [length Nat.eqb]. unfold bind.
    pose proof (find_bearer_skips (s :: rest) [] w Hall) as Hskip.
    rewrite app_nil_r in Hskip. rewrite Hskip. reflexivity.
Qed.

(** X19. The first entry that starts with "Bearer " decides the answer of
    the guard, when every entry before it has at least seven bytes: those
    entries are skipped and the entries after it are never read. If nothing
    follows the prefix, the answer is "jwt cookie not found", also when a
    later entry carries a token. Otherwise it is the verdict of the JWT
    library on what follows the prefix: the user id of the claims when the
    library returns no error and reports the token valid, "invalid jwt
    token" when it returns an error, "invalid token" when it reports the
    token not valid. *)
Theorem first_Bearer_entry_decides {W} (a : auth.Auth) (t : string)
    (md : auth.MD) (before after : list string) (w : W) :
  Forall (fun s => exists p, auth.slice_to s 7 = Some p /\ p <> "Bearer ")
         before ->
  md !! "token" = Some (before ++ ("Bearer " +:+ t) :: after) ->
  auth.GetUserIDFromContext a (Some md) w
  = Done (if String.eqb t "" then ("", Some (Err "jwt cookie not found"))
          else
            match jwt_ParseWithClaims t (auth.JwtSecret a) with
            | (_, Some _) => ("", Some (Err "invalid jwt token"))
            | (token, None) =>
                if token_Valid token
                then (UID (token_Claims token), None)
                else ("", Some (Err "invalid token"))
            end) w.
Proof.
  intros Hbefore Hmd.
  unfold auth.GetUserIDFromContext, auth.metadata_FromIncomingContext.
  rewrite Hmd.
  change (default [] (Some (before ++ ("Bearer " +:+ t) :: after)))
    with (before ++ ("Bearer " +:+ t) :: after).
  destruct (length _ =? 0)%nat eqn:Hlen.
  { apply Nat.eqb_eq in Hlen. rewrite length_app in Hlen. simpl in Hlen. lia. }
  unfold bind. rewrite (find_bearer_skips before _ w Hbefore).
  cbn [auth.find_bearer].
  destruct (slice_Bearer t) as [H7 Hrest]. rewrite H7.
  cbn [String.eqb Ascii.eqb Bool.eqb]. unfold ret at 1. rewrite Hrest.
  destruct (String.eqb t ""); [reflexivity|].
  destruct (jwt_ParseWithClaims t (auth.JwtSecret a)) as [token [e|]];
    [reflexivity|].
  destruct (token_Valid token); reflexivity.
Qed.
End guard_more.

(** ** Registration *)

Lemma existsb_false_Forall {A} (f : A -> bool) (l : list A) :
  existsb f l = false -> Forall (fun x => f x = false) l.
Proof.
  induction l as [|x l IH]; simpl; intros H; constructor.
  - apply orb_false_iff in H. tauto.
  - apply IH. apply orb_false_iff in H. tauto.
Qed.

Section registration.
Context {ext : Externals} {hasher : Bcrypt}.

(** [Register] with a non-empty name and password, case by case. *)
Lemma Register_nonempty (salt : string) (serial : Z)
    (username password : string) (db : pgx.DB) :
  username <> "" -> password <> "" ->
  accounts.Register salt serial username password db
  = if existsb (fun r => String.eqb (pgx.u_username r) username)
               (pgx.users db)
    then Done (Some errs.UsernameAlreadyExists) db
    else
      match bcrypt_GenerateFromPassword salt password with
      | (_, Some e) => Done (Some (Wrapf "can not hash password - " e)) db
      | (h, None) =>
          if existsb (fun r => String.eqb (pgx.u_id r)
                                 (accounts_pg.int_text serial)) (pgx.users db)
          then Done (Some (Err "duplicate key value violates unique constraint"))
                    db
          else Done None
                 (accounts_pg.with_users db
                    (pgx.users db
                     ++ [pgx.mkUserRow (accounts_pg.int_text serial) username
                           h (pgx.now db) (pgx.now db)]))
      end.
Proof.
  intros Hu Hp. unfold accounts.Register.
  pose proof Hu as Hu'. apply String.eqb_neq in Hu'. rewrite Hu'.
  apply String.eqb_neq in Hp. rewrite Hp. cbn [orb].
  unfold bind, accounts_service.IsLoginTaken, accounts_service.Exists,
    accounts_pg.Exists, users_model.GetPars.IsValid.
  cbn [users_model.GetPars.UserID users_model.GetPars.Username].
  pose proof Hu as Hn. apply nonempty_true in Hn. rewrite Hn.
  cbn [nonempty String.eqb negb orb].
  destruct (existsb _ (pgx.users db)) eqn:Htaken; [reflexivity|].
  unfold accounts_service.HashPassword.
  destruct (bcrypt_GenerateFromPassword salt password) as [h [e|]];
    [reflexivity|].
  unfold accounts_service.Create, accounts_pg.Create.
  cbn [accounts_model.Edit.Username accounts_model.Edit.PasswordHash].
  rewrite Htaken. cbn [orb].
  destruct (existsb (fun r => String.eqb (pgx.u_id r) _) (pgx.users db))
    eqn:Hid; [reflexivity|].
  rewrite (users_Get_by_name username _ Hu).
  cbn [accounts_pg.with_users pgx.users].
  rewrite head_filter_first;
    [reflexivity | apply existsb_false_Forall; exact Htaken
    | cbn; apply String.eqb_refl].
Qed.

(** X20. [Register] fails with [InvalidInput] exactly when the name or the
    password is empty, and otherwise with [UsernameAlreadyExists] exactly
    when an account with that name exists; in both cases the database is
    as it was. *)
Theorem Register_refusals (salt : string) (serial : Z)
    (username password : string) (db : pgx.DB) :
  let r := accounts.Register salt serial username password db in
  (r = Done (Some errs.InvalidInput) db <-> username = "" \/ password = "")
  /\ (username <> "" /\ password <> "" ->
      (r = Done (Some errs.UsernameAlreadyExists) db
       <-> exists u, u ∈ pgx.users db /\ pgx.u_username u = username)).
Proof.
  intros r. subst r. split.
  - split.
    + intros H.
      destruct (string_dec username "") as [|Hu]; [auto|].
      destruct (string_dec password "") as [|Hp]; [auto|].
      exfalso. revert H. rewrite (Register_nonempty _ _ _ _ _ Hu Hp).
      unfold errs.UsernameAlreadyExists, errs.InvalidInput.
      destruct (existsb _ _); [discriminate|].
      destruct (bcrypt_GenerateFromPassword _ _) as [h [e|]];
        [discriminate|].
      destruct (existsb _ _); discriminate.
    + intros H. unfold accounts.Register.
      assert (Hb : String.eqb username "" || String.eqb password "" = true).
      { apply orb_true_iff. rewrite !String.eqb_eq. exact H. }
      rewrite Hb. reflexivity.
  - intros [Hu Hp]. rewrite (Register_nonempty _ _ _ _ _ Hu Hp).
    destruct (existsb _ (pgx.users db)) eqn:Htaken.
    + split; [|reflexivity]. intros _.
      apply existsb_exists in Htaken as (u & Hin & Heq).
      exists u. split; [apply list_elem_of_In; exact Hin|].
      apply String.eqb_eq. exact Heq.
    + split.
      * unfold errs.UsernameAlreadyExists.
        destruct (bcrypt_GenerateFromPassword _ _) as [h [e|]];
          [discriminate|].
        destruct (existsb (fun r => String.eqb (pgx.u_id r) _) _);
          discriminate.
      * intros (u & Hin & Heq). exfalso.
        apply existsb_false_Forall in Htaken.
        rewrite Forall_forall in Htaken. specialize (Htaken u Hin).
        cbn beta in Htaken. apply String.eqb_neq in Htaken. congruence.
Qed.

Lemma Register_success (salt : string) (serial : Z)
    (username password : string) (db db' : pgx.DB) :
  accounts.Register salt serial username password db = Done None db' ->
  exists h,
    bcrypt_GenerateFromPassword salt password = (h, None)
    /\ pgx.users db'
       = pgx.users db
         ++ [pgx.mkUserRow (accounts_pg.int_text serial) username h
               (pgx.now db) (pgx.now db)]
    /\ pgx.data_items db' = pgx.data_items db
    /\ Forall (fun r => pgx.u_username r <> username) (pgx.users db).
Proof.
  intros H.
  destruct (string_dec username "") as [Hu|Hu].
  { unfold accounts.Register in H. subst username. discriminate. }
  destruct (string_dec password "") as [Hp|Hp].
  { unfold accounts.Register in H. subst password.
    rewrite orb_true_r in H. discriminate. }
  revert H. rewrite (Register_nonempty _ _ _ _ _ Hu Hp).
  destruct (existsb _ (pgx.users db)) eqn:Htaken; [discriminate|].
  destruct (bcrypt_GenerateFromPassword _ _) as [h [e|]]; [discriminate|].
  destruct (existsb (fun r => String.eqb (pgx.u_id r) _) (pgx.users db));
    [discriminate|].
  intros H. injection H as <-. exists h. repeat split.
  apply existsb_false_Forall in Htaken.
  eapply Forall_impl; [exact Htaken|]. intros x Hx. cbn beta in Hx.
  apply String.eqb_neq. exact Hx.
Qed.

(** X21. When [Register] succeeds, exactly one row has been appended to [users]:
    it carries the name, the hash the hashing call returned for the
    password, and the id the sequence yielded; no account had that name
    before, and [data_items] is as it was. A success also means that
    neither the name nor the password was empty. *)
Theorem Register_adds_one_account (salt : string) (serial : Z)
    (username password : string) (db db' : pgx.DB) :
  accounts.Register salt serial username password db = Done None db' ->
  username <> "" /\ password <> ""
  /\ exists h,
       bcrypt_GenerateFromPassword salt password = (h, None)
       /\ pgx.users db'
          = pgx.users db
            ++ [pgx.mkUserRow (accounts_pg.int_text serial) username h
                  (pgx.now db) (pgx.now db)]
       /\ pgx.data_items db' = pgx.data_items db
       /\ Forall (fun r => pgx.u_username r <> username) (pgx.users db).
Proof.
  intros H. split; [|split].
  - intros ->. unfold accounts.Register in H. discriminate.
  - intros ->. unfold accounts.Register in H. rewrite orb_true_r in H.
    discriminate.
  - exact (Register_success salt serial username password db db' H).
Qed.

(** X22. Registering the same name a second time fails with
    [UsernameAlreadyExists], whatever the password, and changes nothing. *)
Theorem Register_twice_is_refused (salt salt' : string) (serial serial' : Z)
    (username password password' : string) (db db1 : pgx.DB) :
  password' <> "" ->
  accounts.Register salt serial username password db = Done None db1 ->
  accounts.Register salt' serial' username password' db1
  = Done (Some errs.UsernameAlreadyExists) db1.
Proof.
  intros Hp' H.
  assert (Hu : username <> "").
  { intros ->. unfold accounts.Register in H. discriminate. }
  destruct (Register_success _ _ _ _ _ _ H) as (h & _ & Husers & _).
  rewrite (Register_nonempty _ _ _ _ _ Hu Hp'). rewrite Husers.
  rewrite existsb_app. cbn [existsb pgx.u_username].
  rewrite String.eqb_refl. rewrite orb_true_r. reflexivity.
Qed.

(** X23. After a successful [Register], [Login] with the same name and password
    returns the token signed for the id of the new account, provided the
    hash comparison accepts the password for the hash made from it and the
    signing call succeeds; with a password the comparison rejects, [Login]
    fails with [InvalidPassword]. *)
Theorem Register_then_Login (a : auth.Auth) (now : Z) (salt : string)
    (serial : Z) (username password : string) (db db1 : pgx.DB) :
  accounts.Register salt serial username password db = Done None db1 ->
  (forall h, bcrypt_GenerateFromPassword salt password = (h, None) ->
             bcrypt_CompareHashAndPassword h password = None) ->
  (forall t,
     jwt_SignedString
       (mkClaims (Some (now + 24 * 3600)) (accounts_pg.int_text serial))
       (auth.JwtSecret a) = (t, None) ->
     users.Login a now username password db1 = Done (Some t, None) db1)
  /\ (forall h wrong,
        bcrypt_GenerateFromPassword salt password = (h, None) ->
        wrong <> "" ->
        bcrypt_CompareHashAndPassword h wrong <> None ->
        users.Login a now username wrong db1
        = Done (None, Some errs.InvalidPassword) db1).
Proof.
  intros H Hbcrypt.
  assert (Hu : username <> "").
  { intros ->. unfold accounts.Register in H. discriminate. }
  assert (Hp : password <> "").
  { intros ->. unfold accounts.Register in H. rewrite orb_true_r in H.
    discriminate. }
  destruct (Register_success _ _ _ _ _ _ H)
    as (h & Hh & Husers & _ & Hfree).
  assert (Hhead : head (filter
                    (fun r => String.eqb (pgx.u_username r) username)
                    (pgx.users db1))
                  = Some (pgx.mkUserRow (accounts_pg.int_text serial)
                            username h (pgx.now db) (pgx.now db))).
  { rewrite Husers. apply head_filter_first.
    - eapply Forall_impl; [exact Hfree|]. intros x Hx. cbn beta in Hx.
      apply String.eqb_neq. exact Hx.
    - cbn. apply String.eqb_refl. }
  split.
  - intros t Hsign. rewrite (Login_nonempty a now _ _ db1 Hu Hp), Hhead.
    cbn [pgx.u_password_hash pgx.u_id].
    rewrite (Hbcrypt h Hh), Hsign. reflexivity.
  - intros h' wrong Hh' Hw Hreject.
    rewrite Hh in Hh'. injection Hh' as <-.
    rewrite (Login_nonempty a now _ _ db1 Hu Hw), Hhead.
    cbn [pgx.u_password_hash].
    destruct (bcrypt_CompareHashAndPassword h wrong); [reflexivity|].
    congruence.
Qed.
End registration.

(** ** The handlers behind the guard *)

Section handlers_generic.
Context {ext : Externals} {D B : Type} {repoDB : RepoDBI D}
        {repoS3 : RepoS3 B}.

(** X24. When the guard answers with an error, every data handler returns that
    error and neither store is touched: the engine is not reached. *)
Theorem handlers_stop_at_the_guard (a : auth.Auth) (ctx : auth.context)
    (w : D * B) (uid : string) (e : error)
    (get : grpc.pb_GetDataRequest) (item : option grpc.pb_DataItem)
    (id : string) :
  auth.GetUserIDFromContext a ctx w = Done (uid, Some e) w ->
  grpc.GetData a ctx get w = Done (None, Some e) w
  /\ grpc.ListData a ctx w = Done (None, Some e) w
  /\ grpc.CreateData a ctx item w = Done (None, Some e) w
  /\ grpc.UpdateData a ctx item w = Done (None, Some e) w
  /\ grpc.DeleteData a ctx id w = Done (None, Some e) w.
Proof.
  intros H.
  unfold grpc.GetData, grpc.ListData, grpc.CreateData, grpc.UpdateData,
    grpc.DeleteData, bind, users.GetUserIDFromContext.
  rewrite H. repeat split; reflexivity.
Qed.
End handlers_generic.

Lemma scan_rows_from_rows (P : DataItems.t -> Prop) (rows : list pgx.Row) :
  (forall r it, r ∈ rows -> pg.Scan6 r = inl it -> P it) ->
  forall result, pg.scan_rows rows [] = (result, None) -> Forall P result.
Proof.
  intros H result Hs.
  refine (scan_rows_Forall P rows _ [] result (List.Forall_nil _) Hs).
  intros r it Hr. apply H. apply list_elem_of_In. exact Hr.
Qed.

Section handlers_pg.
Context {ext : Externals} {B : Type} {repoS3 : RepoS3 B}.
#[local] Existing Instance pg.Repo.

(** X25. [ListData] lists rows of the caller only: every item in the answer is
    a row of [data_items] whose owner is the id the guard resolved, with the
    id, type and payload column of that row and a blank meta. The payload of
    a binary item is not fetched from the Object Store, and neither store
    changes. *)
Theorem ListData_lists_rows_of_the_caller (a : auth.Auth)
    (ctx : auth.context) (db : pgx.DB) (b : B) (uid : string)
    (out : list grpc.pb_DataItem) (w' : pgx.DB * B) :
  auth.GetUserIDFromContext a ctx (db, b) = Done (uid, None) (db, b) ->
  grpc.ListData a ctx (db, b) = Done (Some out, None) w' ->
  w' = (db, b)
  /\ Forall (fun p =>
               exists r, r ∈ pgx.data_items db
                 /\ pgx.user_id r = Some uid
                 /\ grpc.pb_Id p = pgx.id r
                 /\ grpc.pb_Type p = pgx.type_ r
                 /\ grpc.pb_Data p = Some (pgx.data r)
                 /\ grpc.pb_Meta p = "") out.
Proof.
  intros Hguard.
  unfold grpc.ListData, bind, users.GetUserIDFromContext. rewrite Hguard.
  unfold dataitems.ListAll, service.List, onFst.
  cbn [RepoDBI_List pg.Repo fst snd].
  unfold pg.List, bind, pgx.Pool_Query.
  destruct (pg.scan_rows _ []) as [result [e|]] eqn:Hs; [discriminate|].
  cbn [ret]. intros H. injection H as <- <-. split; [reflexivity|].
  apply Forall_fmap.
  refine (scan_rows_from_rows _ _ _ result Hs).
  intros r it Hr Hscan. apply list_elem_of_filter in Hr as [Hw Hr].
  apply Is_true_true in Hw. unfold pgx.where_ in Hw.
  cbn in Hw. rewrite andb_true_r in Hw.
  unfold pg.Scan6 in Hscan.
  destruct (pgx.user_id r) as [v|] eqn:Hv; [|discriminate].
  apply String.eqb_eq in Hw. subst v. injection Hscan as <-.
  exists r. cbn. repeat split; assumption || reflexivity.
Qed.


(** A request to create an item without a payload is refused by the
    insert: the nil slice behind [&data.Data] is bound as NULL and the data
    column is NOT NULL. Neither [data_items] nor the Object Store
    changes. *)
Lemma CreateData_without_payload_is_refused (a : auth.Auth)
    (ctx : auth.context) (db : pgx.DB) (b : B) (uid : string)
    (item : grpc.pb_DataItem) :
  auth.GetUserIDFromContext a ctx (db, b) = Done (uid, None) (db, b) ->
  grpc.pb_Data item = None ->
  exists db',
    grpc.CreateData a ctx (Some item) (db, b)
    = Done (None,
            Some (Wrapf "create data in PostgreSQL - "
                    (Err "null value violates not-null constraint")))
           (db', b)
    /\ pgx.data_items db' = pgx.data_items db.
Proof.
  intros Hguard Hnil. eexists. split; [|shelve].
  - unfold grpc.CreateData, bind, users.GetUserIDFromContext.
    rewrite Hguard. unfold dataitems.CreateData.
    erewrite Create_insert_refused; [reflexivity|].
    cbn [Edit.ID Edit.UserID Edit.Type_ Edit.Data Edit.Meta].
    rewrite Hnil. reflexivity.
  Unshelve. reflexivity.
Qed.
End handlers_pg.

(** ** The object-store repository *)

Section object_store.
Context {ext : Externals} (r : s3.S3Repo).

(** X27. [DeleteFile] on a reachable bucket returns nil whether or not the
    object exists; afterwards the object named after the id is absent, every
    other object is as it was, and a second [DeleteFile] changes nothing. *)
Theorem DeleteFile_is_idempotent (pars : GetPars.t) (st : s3.Store) :
  s3.reachable st = true ->
  exists st',
    s3.DeleteFile pars st = Done None st'
    /\ s3.objects st' !! filepath_Join "uploads" (GetPars.ID pars) = None
    /\ (forall k, k <> filepath_Join "uploads" (GetPars.ID pars) ->
                  s3.objects st' !! k = s3.objects st !! k)
    /\ s3.DeleteFile pars st' = Done None st'.
Proof.
  intros Hup. eexists. split; [|split; [|split]].
  - unfold s3.DeleteFile, bind, s3.minio_RemoveObject. rewrite Hup.
    reflexivity.
  - cbn [s3.objects]. apply lookup_delete_eq.
  - intros k Hk. cbn [s3.objects]. apply lookup_delete_ne. congruence.
  - unfold s3.DeleteFile, bind, s3.minio_RemoveObject.
    cbn [s3.reachable s3.objects ret]. rewrite delete_delete_eq.
    reflexivity.
Qed.

(** X28. [GetFile] never returns an error: when the object it looks for can be
    read it returns the bytes with the found flag false, and when it cannot,
    because the object is missing or the endpoint is down, the process
    exits. The object it looks for is named after the number [strconv.Atoi]
    reads from the id, not after the id as it is written. *)
Theorem GetFile_returns_bytes_or_exits (pars : GetPars.t) (st : s3.Store) :
  let objectName :=
    filepath_Join "uploads" (fmt_Sprintf_d (fst (strconv_Atoi (GetPars.ID pars))))
  in
  s3.GetFile pars st
  = match (if s3.reachable st then s3.objects st !! objectName else None) with
    | Some bytes => Done (bytes, false, None) st
    | None => Exit st
    end.
Proof.
  cbv zeta. unfold s3.GetFile.
  destruct (strconv_Atoi (GetPars.ID pars)) as [id e]. cbn [fst].
  unfold bind, s3.minio_GetObject, ret, s3.io_Copy, log_Fatalln.
  destruct (s3.reachable st); [|reflexivity].
  destruct (s3.objects st !! _); reflexivity.
Qed.

#[local] Existing Instance pg.Repo.

(** X29. Deleting a binary item removes the object as well as the row: after
    a successful [Delete] of an item that [Get] of the repository reads as
    binary, the bucket holds no object named after the id of the item. *)
Theorem Delete_binary_removes_object (pars : GetPars.t) (db : pgx.DB)
    (st : s3.Store) (w' : pgx.DB * s3.Store) (existing : DataItems.t) :
  pg.Get pars db = Done (Some existing, true, None) db ->
  DataItems.Type_ existing = BinaryDataType ->
  service.Delete (repoS3 := s3.Repo r) pars (db, st) = Done None w' ->
  s3.objects (snd w')
    !! filepath_Join "uploads" (DataItems.ID existing) = None.
Proof.
  intros HG Hty. unfold service.Delete, bind. unfold onFst at 1.
  cbn [RepoDBI_Get pg.Repo fst snd]. rewrite HG. cbn [negb].
  rewrite Hty, String.eqb_refl. unfold onSnd.
  cbn [RepoS3_DeleteFile s3.Repo fst snd].
  unfold s3.DeleteFile, bind, s3.minio_RemoveObject.
  cbn [GetPars.ID GetPars.ofID].
  destruct (s3.reachable st); [|discriminate]. cbn [ret].
  unfold onFst. cbn [RepoDBI_Delete pg.Repo fst snd].
  destruct (pg.Delete pars db) as [x d| |]; try discriminate.
  intros H. injection H as _ <-. cbn [snd s3.objects].
  apply lookup_delete_eq.
Qed.
End object_store.

(** ** Reads scoped by owner *)

Section owner_scope.
Context {B : Type} {repoS3 : RepoS3 B}.
#[local] Existing Instance pg.Repo.

(** X30. A record that [Get] of the engine returns for a filter that names an
    owner belongs to that owner, also when its payload was replaced by the
    bytes of the Object Store. *)
Theorem Get_respects_owner (pars : GetPars.t) (db : pgx.DB) (b : B)
    (it : DataItems.t) (found : bool) (err : option error)
    (w' : pgx.DB * B) :
  GetPars.UserID pars <> "" ->
  service.Get pars (db, b) = Done (Some it, found, err) w' ->
  DataItems.UserID it = GetPars.UserID pars.
Proof.
  intros Hu. unfold service.Get, bind. unfold onFst at 1.
  cbn [RepoDBI_Get pg.Repo fst snd].
  destruct (pg.Get pars db) as [[[obj f] e] d| |] eqn:HG; try discriminate.
  destruct e; [discriminate|]. destruct f; [|discriminate]. cbn [negb].
  destruct obj as [obj|]; [|discriminate].
  pose proof (pg_Get_respects_owner pars db d obj true None Hu HG) as Hown.
  destruct (String.eqb (DataItems.Type_ obj) BinaryDataType).
  - unfold onSnd. cbn [fst snd].
    destruct (RepoS3_GetFile _ b) as [[[file found'] e] b1| |];
      try discriminate.
    destruct e; [discriminate|]. destruct found'; [|discriminate].
    cbn [negb ret]. intros H. injection H as <- _ _ _. exact Hown.
  - intros H. injection H as <- _ _ _. exact Hown.
Qed.
End owner_scope.

(** * The further properties on sample data *)

Lemma Get_binary_takes_payload_from_object_store_witness :
  service.Get (repoDB := pg.Repo) (repoS3 := standin.S3)
    (GetPars.ofID "7") (sample.db_7, sample.bucket_7)
  = Done (None, false, None) (sample.db_7, sample.bucket_7).
Proof.
  apply (Get_binary_takes_payload_from_object_store
           (repoDB := pg.Repo) (repoS3 := standin.S3)
           (GetPars.ofID "7") (sample.db_7, sample.bucket_7)
           (DataItems.mk "7" "1" BinaryDataType standin.deadbeef "blob"
              "http://localhost:9000/mybucket/uploads/7" 100 100)
           sample.db_7 standin.deadbeef false sample.bucket_7);
    vm_compute; reflexivity.
Defined.

Lemma Update_binary_uploads_before_metadata_witness :
  exists w',
    service.Update (repoDB := pg.Repo) (repoS3 := standin.S3)
      (GetPars.ofID "7") sample.new_payload (sample.db_7, sample.bucket_7)
    = Done None w'
    /\ s3.objects (snd w') !! "uploads/7" = Some standin.hello.
Proof.
  eexists. split; [|shelve].
  - erewrite (Update_binary_uploads_before_metadata
                (repoDB := pg.Repo) (repoS3 := standin.S3)
                (GetPars.ofID "7") sample.new_payload
                (sample.db_7, sample.bucket_7)
                (DataItems.mk "7" "1" BinaryDataType standin.deadbeef "blob"
                   "http://localhost:9000/mybucket/uploads/7" 100 100)
                sample.db_7 standin.hello
                "http://localhost:9000/mybucket/uploads/7" None
                (s3.mkStore {[ "uploads/7" := standin.hello ]} true));
      vm_compute; reflexivity.
  Unshelve. vm_compute; reflexivity.
Defined.

Lemma Update_without_payload_is_metadata_only_witness :
  service.Update (repoDB := pg.Repo) (repoS3 := standin.S3)
    (GetPars.ofID "a1") sample.new_meta standin.w_a1
  = Done None
      (pgx.mkDB
         [pgx.mkRow "a1" (Some "1") TextDataType standin.hello
                    (Some "changed") "" 100 100]
         (pgx.users standin.db0) 500 ∅ 1, standin.bucket0).
Proof.
  rewrite (Update_without_payload_is_metadata_only
             (repoDB := pg.Repo) (repoS3 := standin.S3)
             (GetPars.ofID "a1") sample.new_meta standin.w_a1
             (DataItems.mk "a1" "1" TextDataType standin.hello "note" ""
                100 100) standin.db_a1);
    [vm_compute; reflexivity | vm_compute; reflexivity | right; reflexivity].
Defined.

Lemma Delete_stops_when_object_delete_fails_witness :
  service.Delete (repoDB := pg.Repo) (repoS3 := standin.S3)
    (GetPars.ofID "7") (sample.db_7, sample.bucket_7_down)
  = Done (Some (Wrapf "delete file to MinIO - "
                  (Err "failed to delete object from MinIO: connection refused")))
         (sample.db_7, sample.bucket_7_down).
Proof.
  apply (Delete_stops_when_object_delete_fails
           (repoDB := pg.Repo) (repoS3 := standin.S3)
           (GetPars.ofID "7") (sample.db_7, sample.bucket_7_down)
           (DataItems.mk "7" "1" BinaryDataType standin.deadbeef "blob"
              "http://localhost:9000/mybucket/uploads/7" 100 100)
           sample.db_7);
    vm_compute; reflexivity.
Defined.

Lemma pg_Delete_removes_rows_by_id_only_witness :
  (forall r,
     r ∈ pgx.data_items
           (pgx.mkDB [sample.row_7; sample.row_b9] (pgx.users standin.db0)
                     500 ∅ 1)
     <-> r ∈ pgx.data_items sample.db_7
         /\ pgx.id r <> GetPars.ID (GetPars.mk "a1" "2" "" "" ""))
  /\ pgx.users
       (pgx.mkDB [sample.row_7; sample.row_b9] (pgx.users standin.db0)
                 500 ∅ 1)
     = pgx.users sample.db_7.
Proof.
  apply (pg_Delete_removes_rows_by_id_only (GetPars.mk "a1" "2" "" "" "")
           sample.db_7).
  vm_compute; reflexivity.
Defined.

Lemma Delete_then_Get_not_found_witness :
  exists w',
    service.Delete (repoDB := pg.Repo) (repoS3 := standin.S3)
      (GetPars.ofID "7") (sample.db_7, sample.bucket_7) = Done None w'
    /\ Forall (fun r => pgx.id r <> GetPars.ID (GetPars.ofID "7"))
              (pgx.data_items (fst w'))
    /\ service.Get (repoDB := pg.Repo) (repoS3 := standin.S3)
         (GetPars.ofID "7") w' = Done (None, false, None) w'.
Proof.
  eexists. split; [vm_compute; reflexivity|].
  apply (Delete_then_Get_not_found (repoS3 := standin.S3)
           (GetPars.ofID "7") sample.db_7 sample.bucket_7);
    [cbn; discriminate | vm_compute; reflexivity].
Defined.

Lemma Delete_without_id_deletes_no_row_witness :
  exists w',
    service.Delete (repoDB := pg.Repo) (repoS3 := standin.S3)
      (GetPars.mk "" "1" "" "" "") standin.w_a1 = Done None w'
    /\ pgx.data_items (fst w') = pgx.data_items standin.db_a1.
Proof.
  eexists. split; [vm_compute; reflexivity|].
  apply (Delete_without_id_deletes_no_row (repoS3 := standin.S3)
           (GetPars.mk "" "1" "" "" "") standin.db_a1 standin.bucket0);
    [reflexivity
    | constructor; [cbn; discriminate | constructor]
    | vm_compute; reflexivity].
Defined.

Lemma Create_with_existing_id_changes_nothing_witness :
  exists (e : error) (db' : pgx.DB),
    service.Create (repoDB := pg.Repo) (repoS3 := standin.S3)
      standin.text_a1 (standin.db_a1, standin.bucket0)
    = Done (Some (Wrapf "create data in PostgreSQL - " e))
           (db', standin.bucket0)
    /\ pgx.data_items db' = pgx.data_items standin.db_a1
    /\ pgx.pending db' !! pgx.next_tx standin.db_a1 = None.
Proof.
  apply (Create_with_existing_id_changes_nothing (repoS3 := standin.S3)
           standin.text_a1 standin.db_a1 standin.bucket0 standin.row_a1);
    [cbn; constructor | reflexivity].
Defined.

Lemma Create_without_type_or_payload_is_refused_witness :
  exists db',
    service.Create (repoDB := pg.Repo) (repoS3 := standin.S3)
      (Edit.mk "z1" (Some "1") None (Some standin.hello) (Some "memo")
               None None None)
      (standin.db0, standin.bucket0)
    = Done (Some (Wrapf "create data in PostgreSQL - "
                    (Err "null value violates not-null constraint")))
           (db', standin.bucket0)
    /\ pgx.data_items db' = pgx.data_items standin.db0.
Proof.
  apply (Create_without_type_or_payload_is_refused (repoS3 := standin.S3)
           (Edit.mk "z1" (Some "1") None (Some standin.hello) (Some "memo")
                    None None None)
           standin.db0 standin.bucket0).
  left. reflexivity.
Defined.


Lemma repository_keeps_ids_unique_witness :
  exists (err : option error) (db' : pgx.DB),
    pg.Create standin.card_c1 sample.db_7 = Done err db'
    /\ NoDup (map pgx.id (pgx.data_items db')).
Proof.
  assert (Hnd : NoDup (map pgx.id (pgx.data_items sample.db_7))).
  { apply (bool_decide_unpack _). vm_compute. exact I. }
  eexists. eexists. split; [vm_compute; reflexivity|].
  apply (proj1 (repository_keeps_ids_unique sample.db_7 Hnd)
           standin.card_c1 None).
  vm_compute; reflexivity.
Defined.

Lemma HandleTxCompletion_closes_transaction_witness :
  exists db',
    pg.HandleTxCompletion (Some 0%nat) false (Some (Err "upload failed"))
      sample.db_open
    = Done (Some (Err "upload failed")) db'
    /\ pgx.pending db' !! 0%nat = None
    /\ pgx.data_items db' = pgx.data_items sample.db_open.
Proof.
  assert (Hopen : pgx.pending sample.db_open !! 0%nat = Some [])
    by (vm_compute; reflexivity).
  pose proof (HandleTxCompletion_closes_transaction 0 sample.db_open false
                (Some (Err "upload failed")) [] Hopen) as H.
  destruct (pg.HandleTxCompletion (Some 0%nat) false
              (Some (Err "upload failed")) sample.db_open) as [e d|d|d].
  - destruct H as (_ & Hclosed & Herr).
    destruct (Herr _ eq_refl) as [-> Hrows].
    exists d. split; [reflexivity|]. split; assumption.
  - destruct H as [H _]. discriminate H.
  - destruct H.
Defined.

Lemma pg_Update_without_id_and_owner_rewrites_every_row_witness :
  exists db',
    pg.Update (GetPars.mk "" "" "" "" "x") sample.new_meta sample.db_7
    = Done None db'
    /\ map pgx.meta (pgx.data_items db')
       = [Some "changed"; Some "changed"; Some "changed"].
Proof.
  eexists. split; [|shelve].
  - apply (pg_Update_without_id_and_owner_rewrites_every_row
             (GetPars.mk "" "" "" "" "x") sample.new_meta sample.db_7);
      [reflexivity | reflexivity | reflexivity | cbv; discriminate].
  Unshelve. vm_compute; reflexivity.
Defined.

Lemma pg_Update_with_empty_partial_fails_witness :
  pg.Update (GetPars.ofID "a1") Edit.zero standin.db_a1
  = Done (Some (Err "update statements must have at least one Set clause"))
         standin.db_a1.
Proof.
  apply (pg_Update_with_empty_partial_fails (GetPars.ofID "a1") Edit.zero
           standin.db_a1); reflexivity.
Defined.

Lemma pg_List_returns_no_meta_and_no_url_witness :
  exists (items : list DataItems.t) (n : Z),
    pg.List (ListPars.mk None None (Some "1") None None None None None None
                         None None) sample.db_7
    = Done (items, n, None) sample.db_7
    /\ n = 2
    /\ Forall (fun it => DataItems.Meta it = "" /\ DataItems.URL it = "")
              items.
Proof.
  eexists. eexists. split; [vm_compute; reflexivity|].
  split; [reflexivity|].
  apply (pg_List_returns_no_meta_and_no_url
           (ListPars.mk None None (Some "1") None None None None None None
                        None None) sample.db_7 sample.db_7 _ 2).
  vm_compute; reflexivity.
Defined.

Lemma pg_List_fails_on_row_without_owner_witness :
  pg.List ListPars.zero sample.db_n1
  = Done ([], 0, Some (Err "cannot scan NULL into *string")) sample.db_n1.
Proof.
  apply (pg_List_fails_on_row_without_owner ListPars.zero sample.db_n1
           sample.row_n1);
    [cbn; repeat constructor | reflexivity | reflexivity].
Defined.

Lemma first_Bearer_entry_decides_witness :
  auth.GetUserIDFromContext (ext := standin.ext) standin.auth0
    (Some sample.md_cookie) tt
  = Done ("1", None) tt.
Proof.
  apply (first_Bearer_entry_decides (ext := standin.ext) standin.auth0
           "secret.1" sample.md_cookie ["session=abc"] ["x"] tt).
  - constructor; [|constructor].
    exists "session". split; [vm_compute; reflexivity | discriminate].
  - vm_compute; reflexivity.
Defined.

Lemma Register_adds_one_account_witness :
  exists db',
    accounts.Register (hasher := standin_bcrypt.hasher)
      "salt" 3 "carol" "pw3" standin.db0 = Done None db'
    /\ "carol" <> "" /\ "pw3" <> ""
    /\ exists h,
         bcrypt_GenerateFromPassword (Bcrypt := standin_bcrypt.hasher)
           "salt" "pw3" = (h, None)
         /\ pgx.users db'
            = pgx.users standin.db0
              ++ [pgx.mkUserRow (accounts_pg.int_text 3) "carol" h
                    (pgx.now standin.db0) (pgx.now standin.db0)]
         /\ pgx.data_items db' = pgx.data_items standin.db0
         /\ Forall (fun r => pgx.u_username r <> "carol")
                   (pgx.users standin.db0).
Proof.
  eexists. split; [vm_compute; reflexivity|].
  apply (Register_adds_one_account
           (hasher := standin_bcrypt.hasher) "salt" 3 "carol" "pw3"
           standin.db0).
  vm_compute; reflexivity.
Defined.

Lemma Register_twice_is_refused_witness :
  exists db1,
    accounts.Register (hasher := standin_bcrypt.hasher)
      "salt" 3 "carol" "pw3" standin.db0 = Done None db1
    /\ accounts.Register (hasher := standin_bcrypt.hasher) "pepper" 4 "carol" "other" db1
       = Done (Some errs.UsernameAlreadyExists) db1.
Proof.
  eexists. split; [vm_compute; reflexivity|].
  apply (Register_twice_is_refused
           (hasher := standin_bcrypt.hasher) "salt" "pepper" 3 4 "carol"
           "pw3" "other" standin.db0);
    [discriminate | vm_compute; reflexivity].
Defined.

Lemma Register_then_Login_witness :
  exists db1,
    accounts.Register (hasher := standin_bcrypt.hasher)
      "salt" 3 "carol" "pw3" standin.db0 = Done None db1
    /\ users.Login (ext := standin.ext) standin.auth0 0 "carol" "pw3" db1
       = Done (Some "secret.3", None) db1
    /\ users.Login (ext := standin.ext) standin.auth0 0 "carol" "nope" db1
       = Done (None, Some errs.InvalidPassword) db1.
Proof.
  eexists. split; [vm_compute; reflexivity|].
  lazymatch goal with
  | |- users.Login _ _ _ _ ?d = _ /\ _ =>
      destruct (Register_then_Login (ext := standin.ext)
                  (hasher := standin_bcrypt.hasher) standin.auth0 0 "salt" 3
                  "carol" "pw3" standin.db0 d) as [HA HB]
  end.
  - vm_compute; reflexivity.
  - intros h Hh. injection Hh as <-. vm_compute; reflexivity.
  - split.
    + apply HA. vm_compute; reflexivity.
    + apply (HB (standin.hash "pw3") "nope");
        [reflexivity | discriminate | vm_compute; discriminate].
Defined.

Lemma handlers_stop_at_the_guard_witness :
  grpc.GetData (ext := standin.ext) (repoDB := pg.Repo)
    (repoS3 := standin.S3) standin.auth0 None
    (grpc.mkGetDataRequest "a1" "" "") standin.w_a1
  = Done (None, Some (Err "missing metadata in context")) standin.w_a1
  /\ grpc.ListData (ext := standin.ext) (repoDB := pg.Repo)
       standin.auth0 None standin.w_a1
     = Done (None, Some (Err "missing metadata in context")) standin.w_a1
  /\ grpc.CreateData (ext := standin.ext) (repoDB := pg.Repo)
       (repoS3 := standin.S3) standin.auth0 None None standin.w_a1
     = Done (None, Some (Err "missing metadata in context")) standin.w_a1
  /\ grpc.UpdateData (ext := standin.ext) (repoDB := pg.Repo)
       (repoS3 := standin.S3) standin.auth0 None None standin.w_a1
     = Done (None, Some (Err "missing metadata in context")) standin.w_a1
  /\ grpc.DeleteData (ext := standin.ext) (repoDB := pg.Repo)
       (repoS3 := standin.S3) standin.auth0 None "a1" standin.w_a1
     = Done (None, Some (Err "missing metadata in context")) standin.w_a1.
Proof.
  apply (handlers_stop_at_the_guard (ext := standin.ext) (repoDB := pg.Repo)
           (repoS3 := standin.S3) standin.auth0 None standin.w_a1 ""
           (Err "missing metadata in context")).
  reflexivity.
Defined.

Lemma ListData_lists_rows_of_the_caller_witness :
  exists (out : list grpc.pb_DataItem) (w' : pgx.DB * s3.Store),
    grpc.ListData (ext := standin.ext) (repoDB := pg.Repo)
      standin.auth0 (standin.ctx_of "1")
      (sample.db_7, sample.bucket_7)
    = Done (Some out, None) w'
    /\ w' = (sample.db_7, sample.bucket_7)
    /\ Forall (fun p =>
                 exists r, r ∈ pgx.data_items sample.db_7
                   /\ pgx.user_id r = Some "1"
                   /\ grpc.pb_Id p = pgx.id r
                   /\ grpc.pb_Type p = pgx.type_ r
                   /\ grpc.pb_Data p = Some (pgx.data r)
                   /\ grpc.pb_Meta p = "") out.
Proof.
  eexists. eexists. split; [vm_compute; reflexivity|].
  apply (ListData_lists_rows_of_the_caller (ext := standin.ext)
           standin.auth0 (standin.ctx_of "1")
           sample.db_7 sample.bucket_7 "1");
    vm_compute; reflexivity.
Defined.


Lemma DeleteFile_is_idempotent_witness :
  exists st',
    s3.DeleteFile (ext := standin.ext) (GetPars.ofID "7") sample.bucket_7
    = Done None st'
    /\ s3.objects st'
         !! filepath_Join (Externals := standin.ext) "uploads"
              (GetPars.ID (GetPars.ofID "7")) = None
    /\ (forall k,
          k <> filepath_Join (Externals := standin.ext) "uploads"
                 (GetPars.ID (GetPars.ofID "7")) ->
          s3.objects st' !! k = s3.objects sample.bucket_7 !! k)
    /\ s3.DeleteFile (ext := standin.ext) (GetPars.ofID "7") st'
       = Done None st'.
Proof.
  apply (DeleteFile_is_idempotent (ext := standin.ext) (GetPars.ofID "7")
           sample.bucket_7).
  reflexivity.
Defined.

Lemma Delete_binary_removes_object_witness :
  exists w',
    service.Delete (repoDB := pg.Repo) (repoS3 := standin.S3)
      (GetPars.ofID "7") (sample.db_7, sample.bucket_7) = Done None w'
    /\ s3.objects (snd w') !! "uploads/7" = None.
Proof.
  eexists. split; [vm_compute; reflexivity|].
  apply (Delete_binary_removes_object (ext := standin.ext) standin.repo
           (GetPars.ofID "7") sample.db_7 sample.bucket_7 _
           (DataItems.mk "7" "1" BinaryDataType standin.deadbeef "blob"
              "http://localhost:9000/mybucket/uploads/7" 100 100));
    vm_compute; reflexivity.
Defined.

Lemma Get_respects_owner_witness :
  exists it,
    service.Get (repoDB := pg.Repo) (repoS3 := standin.S3)
      (GetPars.mk "a1" "1" "" "" "") standin.w_a1
    = Done (Some it, true, None) standin.w_a1
    /\ DataItems.UserID it = "1".
Proof.
  eexists. split; [vm_compute; reflexivity|].
  apply (Get_respects_owner (repoS3 := standin.S3)
           (GetPars.mk "a1" "1" "" "" "") standin.db_a1 standin.bucket0 _
           true None standin.w_a1);
    [discriminate | vm_compute; reflexivity].
Defined.
